(** * PatientDischarge: the discharge workflow of the hospital panel

    A shallow embedding of [src/components/PatientDischarge.tsx]: the
    search/filter predicate, the discharge command handler and the daily
    discharge statistics, with the remote store, the notification sink and
    the clock as explicit collaborators.  A handler is a function from the
    world it meets and the state of the component to the next state and
    the trace of its effects; [e.preventDefault()] and the rendering are
    left out. *)

From Stdlib Require Import ZArith Ascii String List Bool Lia.
From stdpp Require Import base decidable option list strings gmap.

Local Open Scope string_scope.
Local Open Scope list_scope.

(** ** JavaScript strings

    A string is modelled by the bytes of its UTF-8 encoding, which is how
    the string literals below are read.  On well-formed strings, equality,
    emptiness and [includes] of the encodings are those of the strings.
    [String.prototype.toLowerCase] belongs to the runtime, follows the
    Unicode tables and depends on context; the definitions that call it
    take it as a parameter [toLowerCase], and the properties hold for
    every such function. *)
Module JsString.

(** [s.includes(t)]: [t] occurs in [s] at some index. *)
Fixpoint includes (s t : string) : bool :=
  String.prefix t s
  || match s with
     | EmptyString => false
     | String _ s' => includes s' t
     end.

(** A string is truthy iff it is not empty. *)
Definition truthy (s : string) : bool :=
  match s with EmptyString => false | String _ _ => true end.

(** [s.split(sep)[0]] for a one-unit separator: the units before the
    first separator, the whole string when there is none. *)
Fixpoint beforeFirst (sep : ascii) (s : string) : string :=
  match s with
  | EmptyString => EmptyString
  | String c s' => if Ascii.eqb c sep then EmptyString
                   else String c (beforeFirst sep s')
  end.

(** The code unit [sep] does not occur in [s]. *)
Fixpoint lacks (sep : ascii) (s : string) : bool :=
  match s with
  | EmptyString => true
  | String c s' => negb (Ascii.eqb c sep) && lacks sep s'
  end.

(** *** A lowering to run examples with

    [lowerGreekLatin] is [String.prototype.toLowerCase] on the strings
    whose characters are Basic Latin or the Greek letters U+0391..U+03A9
    and U+03B1..U+03C9: capitals move to the small letters 32 places up,
    and a capital sigma becomes the final sigma U+03C2 when a cased letter
    stands before it and none after it, characters that are ignored for
    case (apostrophe, full stop, colon, circumflex, grave) being skipped on
    both sides.  Other characters pass through unchanged, which is not
    what the runtime does with all of them; no property below rests on
    this function. *)

(** The code points of a string: one- and two-byte sequences are decoded,
    any other byte [b] is kept apart as [1114112 + b]. *)
Fixpoint codePoints (s : string) : list N :=
  match s with
  | EmptyString => []
  | String b0 s0 =>
      let n0 := N_of_ascii b0 in
      if (n0 <? 128)%N then n0 :: codePoints s0
      else if ((192 <=? n0) && (n0 <? 224))%N then
        match s0 with
        | String b1 s1 =>
            ((n0 - 192) * 64 + (N_of_ascii b1 - 128))%N :: codePoints s1
        | EmptyString => [(1114112 + n0)%N]
        end
      else (1114112 + n0)%N :: codePoints s0
  end.

Fixpoint ofCodePoints (l : list N) : string :=
  match l with
  | [] => EmptyString
  | c :: rest =>
      if (c <? 128)%N then String (ascii_of_N c) (ofCodePoints rest)
      else if (c <? 2048)%N then
        String (ascii_of_N (192 + c / 64))
          (String (ascii_of_N (128 + c mod 64)) (ofCodePoints rest))
      else String (ascii_of_N (c - 1114112)) (ofCodePoints rest)
  end.

Definition isCapital (c : N) : bool :=
  ((65 <=? c) && (c <=? 90)
   || (913 <=? c) && (c <=? 937) && negb (c =? 930))%N.

Definition isCased (c : N) : bool :=
  (isCapital c || (97 <=? c) && (c <=? 122) || (945 <=? c) && (c <=? 969))%N.

Definition isCaseIgnorable (c : N) : bool :=
  ((c =? 39) || (c =? 46) || (c =? 58) || (c =? 94) || (c =? 96))%N.

(** A cased letter follows, after characters ignored for case only. *)
Fixpoint casedAhead (l : list N) : bool :=
  match l with
  | [] => false
  | c :: rest => if isCaseIgnorable c then casedAhead rest else isCased c
  end.

(** [casedBefore]: a cased letter stands before, followed by characters
    ignored for case only. *)
Fixpoint lowerPoints (casedBefore : bool) (l : list N) : list N :=
  match l with
  | [] => []
  | c :: rest =>
      (if (c =? 931)%N
       then (if casedBefore && negb (casedAhead rest) then 962 else 963)%N
       else if isCapital c then (c + 32)%N else c)
      :: lowerPoints (if isCaseIgnorable c then casedBefore else isCased c)
           rest
  end.

Definition lowerGreekLatin (s : string) : string :=
  ofCodePoints (lowerPoints false (codePoints s)).

End JsString.

(** ** JavaScript dates

    A [Date] is its time value: milliseconds since 1970-01-01T00:00:00Z. *)
Module JsDate.

Definition msPerDay : Z := 86400000.
Definition Day (t : Z) : Z := (t / msPerDay)%Z.
Definition TimeWithinDay (t : Z) : Z := (t mod msPerDay)%Z.

(** Year, month (1..12) and day of the month of a day number counted from
    1970-01-01, in the proleptic Gregorian calendar. *)
Definition civil (day : Z) : Z * Z * Z :=
  (let z := day + 719468 in
   let era := z / 146097 in
   let doe := z - era * 146097 in
   let yoe := (doe - doe / 1460 + doe / 36524 - doe / 146096) / 365 in
   let doy := doe - (365 * yoe + yoe / 4 - yoe / 100) in
   let mp := (5 * doy + 2) / 153 in
   let d := doy - (153 * mp + 2) / 5 + 1 in
   let m := if mp <? 10 then mp + 3 else mp - 9 in
   let y := yoe + era * 400 + (if m <=? 2 then 1 else 0) in
   (y, m, d))%Z.

Definition digit (n : Z) : ascii :=
  ascii_of_nat (48 + Z.to_nat (n mod 10)%Z).

(** The last [width] decimal digits of [n], zero-padded, in front of [acc]. *)
Fixpoint digits (width : nat) (n : Z) (acc : string) : string :=
  match width with
  | O => acc
  | S w => digits w (n / 10)%Z (String (digit n) acc)
  end.

Definition pad (width : nat) (n : Z) : string := digits width n "".

(** Years 0..9999 print with four digits, the others with a sign and six. *)
Definition yearString (y : Z) : string :=
  if ((0 <=? y)%Z && (y <=? 9999)%Z)%bool then pad 4 y
  else (if (y <? 0)%Z then "-" else "+") +:+ pad 6 (Z.abs y).

Definition dateString (day : Z) : string :=
  let '(y, m, d) := civil day in
  yearString y +:+ "-" +:+ pad 2 m +:+ "-" +:+ pad 2 d.

Definition timeString (ms : Z) : string :=
  (pad 2 (ms / 3600000) +:+ ":" +:+ pad 2 (ms / 60000 mod 60) +:+ ":"
   +:+ pad 2 (ms / 1000 mod 60) +:+ "." +:+ pad 3 (ms mod 1000))%Z.

(** [Date.prototype.toISOString]: the UTC fields of the time value. *)
Definition toISOString (t : Z) : string :=
  dateString (Day t) +:+ "T" +:+ timeString (TimeWithinDay t) +:+ "Z".

(** The calendar date a wall clock shows in a zone [offsetMinutes] east of
    Greenwich; the source never computes it, the specification speaks of
    it. *)
Definition localDateString (offsetMinutes : Z) (t : Z) : string :=
  dateString (Day (t + offsetMinutes * 60000)%Z).

End JsDate.

(** ** Data model *)

(** [interface Patient]: one row of the [patients] table as the panel
    reads it. *)
Module Patient.
Record t := mk {
  mrn : string;
  patient_name : string;
  admission_date : string;
  admission_time : string;
  patient_status : string;
  specialty : string
}.
End Patient.

(** [interface Consultation]: one row of the [consultations] table. *)
Module Consultation.
Record t := mk {
  mrn : string;
  patient_name : string;
  created_at : string;
  status : string;
  consultation_specialty : string;
  requesting_department : string
}.
End Consultation.

(** [Patient | Consultation]: the source tells the two apart with
    ['specialty' in record]. *)
Inductive ActiveRecord :=
| Admission (p : Patient.t)
| Consult (c : Consultation.t).

Definition hasSpecialty (record : ActiveRecord) : bool :=
  match record with Admission _ => true | Consult _ => false end.

Definition mrn (record : ActiveRecord) : string :=
  match record with
  | Admission p => Patient.mrn p
  | Consult c => Consultation.mrn c
  end.

Definition patient_name (record : ActiveRecord) : string :=
  match record with
  | Admission p => Patient.patient_name p
  | Consult c => Consultation.patient_name c
  end.

(** [interface DischargeStats], with [dischargedToday] flattened. *)
Record DischargeStats := mkStats {
  specialty : string;
  admissions : nat;
  consultations : nat
}.

Definition specialtiesList : list string :=
  [ "General Internal Medicine"; "Respiratory Medicine"; "Infectious Diseases";
    "Neurology"; "Gastroenterology"; "Rheumatology"; "Hematology";
    "Thrombosis Medicine"; "Immunology & Allergy"; "Safety Admission";
    "Medical Consultations" ].

(** The [useState] cells of the component. *)
Record State := mkState {
  records : list ActiveRecord;
  selectedRecord : option ActiveRecord;
  dischargeDate : string;
  dischargeTime : string;
  dischargeNote : string;
  searchTerm : string;
  selectedSpecialty : string;
  dischargeStats : list DischargeStats;
  loading : bool
}.

Definition initialState : State :=
  {| records := []; selectedRecord := None;
     dischargeDate := ""; dischargeTime := ""; dischargeNote := "";
     searchTerm := ""; selectedSpecialty := "";
     dischargeStats := []; loading := true |}.

(** ** Search and filter (the [filteredRecords] constant)

    [toLowerCase] is the runtime's [String.prototype.toLowerCase]. *)
Module Search.
Import JsString.

Definition matchesName (toLowerCase : string -> string)
    (searchTerm : string) (record : ActiveRecord) : bool :=
  includes (toLowerCase (patient_name record)) (toLowerCase searchTerm).

Definition matchesMrn (searchTerm : string) (record : ActiveRecord) : bool :=
  includes (mrn record) searchTerm.

Definition matchesSearch (toLowerCase : string -> string)
    (searchTerm : string) (record : ActiveRecord) : bool :=
  matchesName toLowerCase searchTerm record || matchesMrn searchTerm record.

Definition matchesSpecialty (selectedSpecialty : string)
    (record : ActiveRecord) : bool :=
  negb (truthy selectedSpecialty)
  || match record with
     | Admission p => String.eqb (Patient.specialty p) selectedSpecialty
     | Consult c =>
         String.eqb (Consultation.consultation_specialty c) selectedSpecialty
     end.

Definition passes (toLowerCase : string -> string)
    (searchTerm selectedSpecialty : string) (record : ActiveRecord) : bool :=
  matchesSearch toLowerCase searchTerm record
  && matchesSpecialty selectedSpecialty record.

Definition filteredRecords (toLowerCase : string -> string)
    (st : State) : list ActiveRecord :=
  List.filter (passes toLowerCase (searchTerm st) (selectedSpecialty st))
    (records st).

(** The predicate in the words of the specification: some part of the name
    is the search term up to letter case. *)
Definition containsIgnoringCase (toLowerCase : string -> string)
    (text term : string) : Prop :=
  exists pre mid post,
    text = pre +:+ mid +:+ post /\ toLowerCase mid = toLowerCase term.

Definition containsExactly (text term : string) : Prop :=
  exists pre post, text = pre +:+ term +:+ post.

Definition specialtyOf (record : ActiveRecord) : string :=
  match record with
  | Admission p => Patient.specialty p
  | Consult c => Consultation.consultation_specialty c
  end.

Definition passes_spec (toLowerCase : string -> string)
    (searchTerm selectedSpecialty : string) (record : ActiveRecord) : Prop :=
  (containsIgnoringCase toLowerCase (patient_name record) searchTerm
   \/ containsExactly (mrn record) searchTerm)
  /\ (selectedSpecialty = "" \/ specialtyOf record = selectedSpecialty).

(** The reading of the search as containment up to letter case, for every
    record, search term and specialty filter. *)
Definition matchesUpToCase (toLowerCase : string -> string) : Prop :=
  forall searchTerm selectedSpecialty record,
    passes toLowerCase searchTerm selectedSpecialty record = true
    <-> passes_spec toLowerCase searchTerm selectedSpecialty record.

End Search.

(** ** Collaborators: the remote store, the notification sink, the clock *)

(** The query builder calls the component makes on a table. *)
Inductive Filter :=
| Eq (column value : string)
| Gte (column value : string)
| Lte (column value : string).

Inductive Request :=
| SelectAll (table : string) (filters : list Filter)
    (orderBy : string) (ascending : bool)
| CountExact (table : string) (filters : list Filter)
| Update (table : string) (patch : gmap string string) (filters : list Filter).

(** Everything a handler does to the world, in order. *)
Inductive Effect :=
| Query (request : Request)
| ToastSuccess (message : string)
| ToastError (message : string)
| ConsoleError (label cause : string).

(** What an awaited call gives back: a result object, or a rejection. *)
Inductive Awaited (A : Type) :=
| Fulfilled (result : A)
| Rejected (cause : string).
Arguments Fulfilled {A} result.
Arguments Rejected {A} cause.

Record SelectResult (A : Type) := mkSelectResult {
  data : option (list A);
  selectError : option string
}.
Arguments mkSelectResult {A} data selectError.
Arguments data {A} _.
Arguments selectError {A} _.

Record CountResult := mkCountResult {
  count : option nat;
  countError : option string
}.

(** [{ error }] of an update. *)
Record UpdateResult := mkUpdateResult {
  updateError : option string
}.

(** The world one handler run meets: the instant [new Date()] reads and the
    answers of the store. *)
Record World := mkWorld {
  clock : Z;
  selectPatients : Request -> Awaited (SelectResult Patient.t);
  selectConsultations : Request -> Awaited (SelectResult Consultation.t);
  countRows : Request -> Awaited CountResult;
  update : Request -> Awaited UpdateResult
}.

(** A [try] body either runs to its end or throws. *)
Inductive Outcome (A : Type) :=
| Ok (value : A)
| Threw (cause : string).
Arguments Ok {A} value.
Arguments Threw {A} cause.

(** ** State setters *)

Definition setRecords (v : list ActiveRecord) (st : State) : State :=
  {| records := v; selectedRecord := selectedRecord st;
     dischargeDate := dischargeDate st; dischargeTime := dischargeTime st;
     dischargeNote := dischargeNote st; searchTerm := searchTerm st;
     selectedSpecialty := selectedSpecialty st;
     dischargeStats := dischargeStats st; loading := loading st |}.

Definition setSelectedRecord (v : option ActiveRecord) (st : State) : State :=
  {| records := records st; selectedRecord := v;
     dischargeDate := dischargeDate st; dischargeTime := dischargeTime st;
     dischargeNote := dischargeNote st; searchTerm := searchTerm st;
     selectedSpecialty := selectedSpecialty st;
     dischargeStats := dischargeStats st; loading := loading st |}.

Definition setDischargeDate (v : string) (st : State) : State :=
  {| records := records st; selectedRecord := selectedRecord st;
     dischargeDate := v; dischargeTime := dischargeTime st;
     dischargeNote := dischargeNote st; searchTerm := searchTerm st;
     selectedSpecialty := selectedSpecialty st;
     dischargeStats := dischargeStats st; loading := loading st |}.

Definition setDischargeTime (v : string) (st : State) : State :=
  {| records := records st; selectedRecord := selectedRecord st;
     dischargeDate := dischargeDate st; dischargeTime := v;
     dischargeNote := dischargeNote st; searchTerm := searchTerm st;
     selectedSpecialty := selectedSpecialty st;
     dischargeStats := dischargeStats st; loading := loading st |}.

Definition setDischargeNote (v : string) (st : State) : State :=
  {| records := records st; selectedRecord := selectedRecord st;
     dischargeDate := dischargeDate st; dischargeTime := dischargeTime st;
     dischargeNote := v; searchTerm := searchTerm st;
     selectedSpecialty := selectedSpecialty st;
     dischargeStats := dischargeStats st; loading := loading st |}.

Definition setSearchTerm (v : string) (st : State) : State :=
  {| records := records st; selectedRecord := selectedRecord st;
     dischargeDate := dischargeDate st; dischargeTime := dischargeTime st;
     dischargeNote := dischargeNote st; searchTerm := v;
     selectedSpecialty := selectedSpecialty st;
     dischargeStats := dischargeStats st; loading := loading st |}.

Definition setSelectedSpecialty (v : string) (st : State) : State :=
  {| records := records st; selectedRecord := selectedRecord st;
     dischargeDate := dischargeDate st; dischargeTime := dischargeTime st;
     dischargeNote := dischargeNote st; searchTerm := searchTerm st;
     selectedSpecialty := v;
     dischargeStats := dischargeStats st; loading := loading st |}.

Definition setDischargeStats (v : list DischargeStats) (st : State) : State :=
  {| records := records st; selectedRecord := selectedRecord st;
     dischargeDate := dischargeDate st; dischargeTime := dischargeTime st;
     dischargeNote := dischargeNote st; searchTerm := searchTerm st;
     selectedSpecialty := selectedSpecialty st;
     dischargeStats := v; loading := loading st |}.

Definition setLoading (v : bool) (st : State) : State :=
  {| records := records st; selectedRecord := selectedRecord st;
     dischargeDate := dischargeDate st; dischargeTime := dischargeTime st;
     dischargeNote := dischargeNote st; searchTerm := searchTerm st;
     selectedSpecialty := selectedSpecialty st;
     dischargeStats := dischargeStats st; loading := v |}.

(** ** Active Record Aggregator ([fetchActiveRecords]) *)

Definition activePatientsQuery : Request :=
  SelectAll "patients" [Eq "patient_status" "Active"] "admission_date" false.

Definition activeConsultationsQuery : Request :=
  SelectAll "consultations" [Eq "status" "Active"] "created_at" false.

(** [data || []] *)
Definition orEmpty {A : Type} (d : option (list A)) : list A :=
  match d with Some l => l | None => [] end.

Definition fetchActiveRecordsFailed (cause : string) : list Effect :=
  [ ConsoleError "Error fetching active records:" cause;
    ToastError "Failed to fetch active records" ].

Definition fetchActiveRecords (w : World) (st : State) : State * list Effect :=
  match selectPatients w activePatientsQuery with
  | Rejected cause =>
      (setLoading false st,
       [Query activePatientsQuery] ++ fetchActiveRecordsFailed cause)
  | Fulfilled patientsReply =>
      let issued := [Query activePatientsQuery; Query activeConsultationsQuery] in
      match selectConsultations w activeConsultationsQuery with
      | Rejected cause =>
          (setLoading false st, issued ++ fetchActiveRecordsFailed cause)
      | Fulfilled consultationsReply =>
          match selectError patientsReply, selectError consultationsReply with
          | Some cause, _ | None, Some cause =>
              (setLoading false st, issued ++ fetchActiveRecordsFailed cause)
          | None, None =>
              (setLoading false
                 (setRecords
                    (map Admission (orEmpty (data patientsReply))
                     ++ map Consult (orEmpty (data consultationsReply))) st),
               issued)
          end
      end
  end.

(** ** Daily Discharge Statistics Calculator ([fetchDischargeStats]) *)

(** [new Date().toISOString().split('T')[0]] *)
Definition today (w : World) : string :=
  JsString.beforeFirst "T" (JsDate.toISOString (clock w)).

Definition dayWindow (today : string) : list Filter :=
  [ Gte "updated_at" (today +:+ "T00:00:00");
    Lte "updated_at" (today +:+ "T23:59:59") ].

Definition dischargedPatientsQuery (today specialty : string) : Request :=
  CountExact "patients"
    ([Eq "specialty" specialty; Eq "patient_status" "Discharged"]
     ++ dayWindow today).

Definition completedConsultationsQuery (today specialty : string) : Request :=
  CountExact "consultations"
    ([Eq "consultation_specialty" specialty; Eq "status" "Completed"]
     ++ dayWindow today).

(** [count || 0] *)
Definition orZero (c : option nat) : nat :=
  match c with Some n => n | None => 0 end.

(** One run of the callback given to [specialtiesList.map]: the queries it
    issued and how it settled.  The second query is issued once the first
    reply is in, also when that reply reports an error. *)
Record Task := mkTask {
  firstQuery : Request;
  secondQuery : option Request;
  settled : Outcome DischargeStats
}.

Definition specialtyStats (w : World) (today specialty : string) : Task :=
  let q1 := dischargedPatientsQuery today specialty in
  let q2 := completedConsultationsQuery today specialty in
  match countRows w q1 with
  | Rejected cause => mkTask q1 None (Threw cause)
  | Fulfilled patientsReply =>
      match countRows w q2 with
      | Rejected cause => mkTask q1 (Some q2) (Threw cause)
      | Fulfilled consultationsReply =>
          mkTask q1 (Some q2)
            match countError patientsReply, countError consultationsReply with
            | Some cause, _ | None, Some cause => Threw cause
            | None, None =>
                Ok {| specialty := specialty;
                      admissions := orZero (count patientsReply);
                      consultations := orZero (count consultationsReply) |}
            end
      end
  end.

(** [Promise.all]: every value, or the first rejection; the model takes
    the rejections in list order. *)
Fixpoint promiseAll {A : Type} (l : list (Outcome A)) : Outcome (list A) :=
  match l with
  | [] => Ok []
  | Threw cause :: _ => Threw cause
  | Ok a :: rest =>
      match promiseAll rest with
      | Ok values => Ok (a :: values)
      | Threw cause => Threw cause
      end
  end.

Definition hasActivity (stat : DischargeStats) : bool :=
  (0 <? admissions stat)%nat || (0 <? consultations stat)%nat.

(** The queries of all tasks: each first query is issued when [map] calls
    the callback, the second ones follow as the replies come in. *)
Definition issuedQueries (tasks : list Task) : list Effect :=
  map (fun t => Query (firstQuery t)) tasks
  ++ omap (fun t => Query <$> secondQuery t) tasks.

Definition fetchDischargeStats (w : World) (st : State) : State * list Effect :=
  let tasks := map (specialtyStats w (today w)) specialtiesList in
  match promiseAll (map settled tasks) with
  | Ok stats =>
      (setDischargeStats (List.filter hasActivity stats) st, issuedQueries tasks)
  | Threw cause =>
      (st, issuedQueries tasks
           ++ [ ConsoleError "Error fetching discharge stats:" cause;
                ToastError "Failed to fetch discharge statistics" ])
  end.

(** ** Discharge Command Handler ([handleDischarge]) *)

Definition requiredFieldsMessage : string :=
  "Please fill in all required fields".

Definition admissionPatch (w : World) (st : State) : gmap string string :=
  {[ "patient_status" := "Discharged";
     "discharge_date" := dischargeDate st;
     "discharge_time" := dischargeTime st;
     "discharge_note" := dischargeNote st;
     "updated_at" := JsDate.toISOString (clock w) ]}.

Definition consultationPatch (w : World) : gmap string string :=
  {[ "status" := "Completed";
     "updated_at" := JsDate.toISOString (clock w) ]}.

(** The update the [try] block sends for the selected record. *)
Definition dischargeRequest (w : World) (st : State)
    (selected : ActiveRecord) : Request :=
  if hasSpecialty selected
  then Update "patients" (admissionPatch w st) [Eq "mrn" (mrn selected)]
  else Update "consultations" (consultationPatch w) [Eq "mrn" (mrn selected)].

(** [const { error } = await ...; if (error) throw error;] *)
Definition awaitUpdate (reply : Awaited UpdateResult) : Outcome unit :=
  match reply with
  | Rejected cause => Threw cause
  | Fulfilled r =>
      match updateError r with
      | Some cause => Threw cause
      | None => Ok tt
      end
  end.

(** The local updates after a confirmed discharge, before the statistics
    are fetched again. *)
Definition afterDischarge (selected : ActiveRecord) (st : State) : State :=
  setDischargeNote ""
    (setDischargeTime ""
       (setDischargeDate ""
          (setSelectedRecord None
             (setRecords
                (List.filter
                   (fun record =>
                      negb (String.eqb (mrn record) (mrn selected)))
                   (records st))
                st)))).

(** [w] is the world the update meets, [later] the one the statistics run
    it starts meets. *)
Definition handleDischarge (w later : World) (st : State)
    : State * list Effect :=
  match selectedRecord st with
  | None => (st, [ToastError requiredFieldsMessage])
  | Some selected =>
      if negb (JsString.truthy (dischargeDate st))
         || negb (JsString.truthy (dischargeTime st))
      then (st, [ToastError requiredFieldsMessage])
      else
        let request := dischargeRequest w st selected in
        match awaitUpdate (update w request) with
        | Ok _ =>
            let '(st', refresh) :=
              fetchDischargeStats later (afterDischarge selected st) in
            (st',
             [Query request; ToastSuccess "Record discharged successfully"]
             ++ refresh)
        | Threw cause =>
            (st,
             [ Query request; ConsoleError "Error:" cause;
               ToastError "Failed to discharge record" ])
        end
  end.

(** Projections of a trace. *)
Definition isUpdate (e : Effect) : bool :=
  match e with Query (Update _ _ _) => true | _ => false end.

Definition isToast (e : Effect) : bool :=
  match e with ToastSuccess _ | ToastError _ => true | _ => false end.

Definition updatesOf (trace : list Effect) : list Effect :=
  List.filter isUpdate trace.

Definition toastsOf (trace : list Effect) : list Effect :=
  List.filter isToast trace.

(** ** Mounting and selections *)

(** The state once the reads started by the mount effect have settled. *)
Definition mount (w : World) : State := fst (fetchActiveRecords w initialState).

(** A selection is stale when the list no longer holds the record. *)
Definition staleOrAbsent (st : State) : Prop :=
  match selectedRecord st with
  | None => True
  | Some selected => ~ In selected (records st)
  end.

(** The reading of the guard as one that turns away every stale or absent
    selection. *)
Definition rejectsStaleOrAbsent : Prop :=
  forall w later st,
    staleOrAbsent st ->
    handleDischarge w later st = (st, [ToastError requiredFieldsMessage]).

(** ** A store that answers count queries from its rows *)

(** Modelled from the spec: the external data store's
    [count(table, filter) -> integer], with equality filters and range
    filters on a timestamp column (section 6); the client library is not
    part of the sources.  A row maps column names to values; [le] is the
    order the store compares timestamps with. *)
Record Store := mkStore {
  patientsTable : list (gmap string string);
  consultationsTable : list (gmap string string)
}.

(** Modelled from the spec: the rows a table name stands for. *)
Definition table (store : Store) (name : string) : list (gmap string string) :=
  if String.eqb name "patients" then patientsTable store
  else if String.eqb name "consultations" then consultationsTable store
  else [].

(** Modelled from the spec: equality and range filters on one row. *)
Definition satisfies (le : string -> string -> bool)
    (row : gmap string string) (f : Filter) : bool :=
  match f with
  | Eq column value =>
      match row !! column with Some x => String.eqb x value | None => false end
  | Gte column value =>
      match row !! column with Some x => le value x | None => false end
  | Lte column value =>
      match row !! column with Some x => le x value | None => false end
  end.

(** Modelled from the spec: the answer to a count query, the number of rows
    of the table that satisfy every filter. *)
Definition storeCount (le : string -> string -> bool) (store : Store)
    (request : Request) : Awaited CountResult :=
  match request with
  | CountExact name filters =>
      Fulfilled
        {| count :=
             Some (length
                     (List.filter
                        (fun row => forallb (satisfies le row) filters)
                        (table store name)));
           countError := None |}
  | _ => Rejected "not a count query"
  end.

(** The counts in the words of the specification: rows of one specialty,
    in the terminal status, last updated within the day window of [date]. *)
Definition hasValue (column value : string) (row : gmap string string) : bool :=
  match row !! column with Some x => String.eqb x value | None => false end.

Definition updatedOn (le : string -> string -> bool) (date : string)
    (row : gmap string string) : bool :=
  match row !! "updated_at" with
  | Some u => le (date +:+ "T00:00:00") u && le u (date +:+ "T23:59:59")
  | None => false
  end.

Definition admissionsDischargedOn (le : string -> string -> bool)
    (date specialty : string) (store : Store) : nat :=
  length
    (List.filter
       (fun row =>
          hasValue "specialty" specialty row
          && hasValue "patient_status" "Discharged" row
          && updatedOn le date row)
       (patientsTable store)).

Definition consultationsCompletedOn (le : string -> string -> bool)
    (date specialty : string) (store : Store) : nat :=
  length
    (List.filter
       (fun row =>
          hasValue "consultation_specialty" specialty row
          && hasValue "status" "Completed" row
          && updatedOn le date row)
       (consultationsTable store)).

(** The statistics of one specialty when the day is [date]. *)
Definition statsOn (le : string -> string -> bool) (date specialty : string)
    (store : Store) : DischargeStats :=
  {| specialty := specialty;
     admissions := admissionsDischargedOn le date specialty store;
     consultations := consultationsCompletedOn le date specialty store |}.

(** The reading of the day as the calendar date of the client's own zone,
    [offsetMinutes] east of Greenwich. *)
Definition countsTheLocalDay : Prop :=
  forall le store offsetMinutes w specialty,
    countRows w = storeCount le store ->
    In specialty specialtiesList ->
    settled (specialtyStats w (today w) specialty)
    = Ok (statsOn le (JsDate.localDateString offsetMinutes (clock w))
            specialty store).

(** The reading of the failure notification as one that carries the cause
    of the failed update. *)
Definition failureToastCarriesCause : Prop :=
  forall w later st selected cause,
    selectedRecord st = Some selected ->
    JsString.truthy (dischargeDate st) = true ->
    JsString.truthy (dischargeTime st) = true ->
    awaitUpdate (update w (dischargeRequest w st selected)) = Threw cause ->
    exists message,
      In (ToastError message) (snd (handleDischarge w later st))
      /\ JsString.includes message cause = true.

(** ** What the component renders

    The decisions of the returned JSX, without styling and icons: the
    loading message or the panel; in the panel the statistics section, the
    two filter controls and the discharge form.  The rows of the list are
    left out: the elements returned are those of [filteredRecords], and
    how they reach the page, matched by a [key] that two records can
    share, is React's doing. *)

(** The form; [noteValue] is [None] when the note field is not rendered. *)
Record FormView := mkFormView {
  formTitle : string;
  dateValue : string;
  timeValue : string;
  noteValue : option string
}.

Record Panel := mkPanel {
  todaysDischarges : option (list DischargeStats);
  searchValue : string;
  specialtyValue : string;
  specialtyOptions : list (string * string);
  form : option FormView
}.

Inductive View :=
| LoadingView
| PanelView (panel : Panel).

Definition renderForm (st : State) (selected : ActiveRecord) : FormView :=
  {| formTitle := "Discharge Record: " +:+ patient_name selected;
     dateValue := dischargeDate st;
     timeValue := dischargeTime st;
     noteValue :=
       if hasSpecialty selected then Some (dischargeNote st) else None |}.

Definition render (st : State) : View :=
  if loading st then LoadingView
  else
    PanelView
      {| todaysDischarges :=
           if (0 <? length (dischargeStats st))%nat
           then Some (dischargeStats st) else None;
         searchValue := searchTerm st;
         specialtyValue := selectedSpecialty st;
         specialtyOptions :=
           ("", "All Specialties") :: map (fun s => (s, s)) specialtiesList;
         form := renderForm st <$> selectedRecord st |}.

(** The keys of a patch, as the store receives them. *)
Definition patchOf (request : Request) : gmap string string :=
  match request with
  | Update _ patch _ => patch
  | _ => ∅
  end.

Definition isCount (e : Effect) : bool :=
  match e with Query (CountExact _ _) => true | _ => false end.

(** A count query on [table] whose first filter names [specialty]. *)
Definition asksAbout (table specialty : string) (e : Effect) : bool :=
  match e with
  | Query (CountExact name (Eq _ value :: _)) =>
      String.eqb name table && String.eqb value specialty
  | _ => false
  end.

(** ** Fixtures: the scenarios of the specification *)
Module Scenario.

Definition john : ActiveRecord :=
  Admission (Patient.mk "A1" "John Doe" "2024-02-20" "08:15" "Active" "Neurology").

Definition jane : ActiveRecord :=
  Consult (Consultation.mk "C1" "Jane Roe" "2024-02-28T09:00:00" "Active"
             "Hematology" "Emergency").

(** A consultation filed under the medical record number of [john]. *)
Definition johnConsult : ActiveRecord :=
  Consult (Consultation.mk "A1" "John Doe" "2024-02-27T11:30:00" "Active"
             "Hematology" "Neurology").

(** A patient whose name ends in a capital sigma. *)
Definition nikos : ActiveRecord :=
  Admission (Patient.mk "A9" "ΝΙΚΟΣ" "2024-02-25" "17:40" "Active"
               "Rheumatology").

(** 2024-03-01T10:00:00.000Z *)
Definition morning : Z := 1709287200000.

(** 2024-03-01T22:30:00.000Z, half past one in the night of 2 March in a
    zone three hours east of Greenwich. *)
Definition lateEvening : Z := 1709332200000.

Definition row (columns : list (string * string)) : gmap string string :=
  list_to_map columns.

(** Two Neurology admissions discharged on 1 March, nothing else. *)
Definition ward : Store :=
  {| patientsTable :=
       [ row [("mrn", "A7"); ("specialty", "Neurology");
              ("patient_status", "Discharged");
              ("updated_at", "2024-03-01T08:00:00")];
         row [("mrn", "A8"); ("specialty", "Neurology");
              ("patient_status", "Discharged");
              ("updated_at", "2024-03-01T09:30:00")];
         row [("mrn", "A1"); ("specialty", "Neurology");
              ("patient_status", "Active");
              ("updated_at", "2024-02-20T08:15:00")] ];
     consultationsTable :=
       [ row [("mrn", "C1"); ("consultation_specialty", "Hematology");
              ("status", "Active");
              ("updated_at", "2024-02-28T09:00:00")] ] |}.

Definition accept (request : Request) : Awaited UpdateResult :=
  Fulfilled {| updateError := None |}.

Definition refuse (cause : string) (request : Request) : Awaited UpdateResult :=
  Fulfilled {| updateError := Some cause |}.

(** A world over [ward] at instant [now] whose updates answer [answer];
    the active lists hold [john] and [jane]. *)
Definition world (now : Z) (answer : Request -> Awaited UpdateResult) : World :=
  {| clock := now;
     selectPatients := fun _ =>
       Fulfilled (mkSelectResult
                    (Some [Patient.mk "A1" "John Doe" "2024-02-20" "08:15"
                             "Active" "Neurology"]) None);
     selectConsultations := fun _ =>
       Fulfilled (mkSelectResult
                    (Some [Consultation.mk "C1" "Jane Roe"
                             "2024-02-28T09:00:00" "Active" "Hematology"
                             "Emergency"]) None);
     countRows := storeCount String.leb ward;
     update := answer |}.

(** The form filled in for a discharge on 1 March at ten. *)
Definition filled (selected : ActiveRecord) (note : string) (st : State) : State :=
  setDischargeNote note
    (setDischargeTime "10:00"
       (setDischargeDate "2024-03-01" (setSelectedRecord (Some selected) st))).

End Scenario.

(** * Properties *)

Import JsString.

(** ** Strings *)

Lemma app_cons (c : ascii) (a b : string) :
  String c a +:+ b = String c (a +:+ b).
Proof. reflexivity. Qed.

Lemma app_empty (b : string) : "" +:+ b = b.
Proof. reflexivity. Qed.

Lemma prefix_spec (t s : string) :
  String.prefix t s = true <-> exists post, s = t +:+ post.
Proof.
  revert s. induction t as [|a t IH]; intros s.
  - split; [intros _; by exists s | by destruct s].
  - destruct s as [|b s]; simpl.
    + split; [done | intros [post H]; discriminate].
    + setoid_rewrite app_cons.
      destruct (Ascii.ascii_dec a b) as [->|Hne].
      * rewrite IH. split; intros [post H]; exists post; congruence.
      * split; [done | intros [post H]; congruence].
Qed.

Lemma includes_spec (s t : string) :
  includes s t = true <-> exists pre post, s = pre +:+ t +:+ post.
Proof.
  induction s as [|c s IH]; cbn [includes].
  - rewrite orb_false_r, prefix_spec. split.
    + intros [post H]. by exists "", post.
    + intros [pre [post H]]. destruct pre; [by exists post | done].
  - rewrite orb_true_iff, prefix_spec, IH. split.
    + intros [[post H] | [pre [post H]]].
      * by exists "", post.
      * exists (String c pre), post. by rewrite app_cons, H.
    + intros [pre [post H]]. destruct pre as [|a pre].
      * left. by exists post.
      * right. exists pre, post. rewrite app_cons in H. congruence.
Qed.

(** ** The search and filter predicate *)

Lemma matchesMrn_spec term record :
  Search.matchesMrn term record = true
  <-> Search.containsExactly (mrn record) term.
Proof. apply includes_spec. Qed.

Lemma matchesSpecialty_spec sel record :
  Search.matchesSpecialty sel record = true
  <-> sel = "" \/ Search.specialtyOf record = sel.
Proof.
  unfold Search.matchesSpecialty. rewrite orb_true_iff.
  assert (negb (truthy sel) = true <-> sel = "") as ->
    by (destruct sel; simpl; split; congruence).
  by destruct record; simpl; rewrite String.eqb_eq.
Qed.

Lemma includes_same (s : string) : includes s s = true.
Proof.
  apply includes_spec. exists "", "". rewrite app_empty.
  induction s as [|c s IH]; [reflexivity |]. by rewrite app_cons, <- IH.
Qed.

(** The predicate as the code computes it: containment after lowering. *)
Lemma passes_lowered toLowerCase term sel record :
  Search.passes toLowerCase term sel record = true
  <-> (Search.containsExactly (toLowerCase (patient_name record))
         (toLowerCase term)
       \/ Search.containsExactly (mrn record) term)
      /\ (sel = "" \/ Search.specialtyOf record = sel).
Proof.
  unfold Search.passes, Search.matchesSearch, Search.matchesName.
  rewrite andb_true_iff, orb_true_iff, matchesMrn_spec, matchesSpecialty_spec.
  unfold Search.containsExactly. by rewrite includes_spec.
Qed.

Lemma matchesName_case toLowerCase term other record :
  toLowerCase other = toLowerCase term ->
  Search.matchesName toLowerCase other record
  = Search.matchesName toLowerCase term record.
Proof. unfold Search.matchesName. by intros ->. Qed.

(** C8, as amended.  Whatever [toLowerCase] does, a record passes the
    search/filter predicate iff its lower-cased patient name contains the
    lower-cased search term as a substring or its medical record number
    contains the term exactly, and the specialty filter is unselected or
    equals the record's specialty (consultation specialty for a
    consultation).  The filtered list holds exactly the records of the
    unified list that pass, and two search terms with the same lower-casing
    select the same records by patient name. *)
Theorem search_filter_predicate
    (toLowerCase : string -> string) (st : State) (term sel : string) :
  (forall record,
     Search.passes toLowerCase term sel record = true
     <-> (Search.containsExactly (toLowerCase (patient_name record))
            (toLowerCase term)
          \/ Search.containsExactly (mrn record) term)
         /\ (sel = "" \/ Search.specialtyOf record = sel))
  /\ (forall record,
        In record (Search.filteredRecords toLowerCase st)
        <-> In record (records st)
            /\ (Search.containsExactly (toLowerCase (patient_name record))
                   (toLowerCase (searchTerm st))
                 \/ Search.containsExactly (mrn record) (searchTerm st))
            /\ (selectedSpecialty st = ""
                \/ Search.specialtyOf record = selectedSpecialty st))
  /\ (forall other,
        toLowerCase other = toLowerCase term ->
        List.filter (Search.matchesName toLowerCase other) (records st)
        = List.filter (Search.matchesName toLowerCase term) (records st)).
Proof.
  split; [| split].
  - intros record. apply passes_lowered.
  - intros record. unfold Search.filteredRecords.
    by rewrite filter_In, passes_lowered.
  - intros other Hcase. apply filter_ext. intros record.
    by apply matchesName_case.
Qed.

Lemma search_filter_predicate_witness :
  JsString.lowerGreekLatin "Jane" = JsString.lowerGreekLatin "jane"
  /\ List.filter (Search.matchesName JsString.lowerGreekLatin "Jane")
       [Scenario.john; Scenario.jane]
     = List.filter (Search.matchesName JsString.lowerGreekLatin "jane")
         [Scenario.john; Scenario.jane].
Proof.
  split; [reflexivity |].
  apply (search_filter_predicate JsString.lowerGreekLatin
           (setRecords [Scenario.john; Scenario.jane] initialState)
           "jane" "").
  reflexivity.
Defined.

(** C8, as stated, fails: the name "ΝΙΚΟΣ" holds the search term "Σ" letter
    for letter, yet lower-casing turns the sigma that ends the name into
    the final sigma and the sigma searched for into the other one, and the
    record is not shown. *)
Lemma search_misses_the_final_sigma :
  ~ Search.matchesUpToCase JsString.lowerGreekLatin.
Proof.
  intros Hclaim.
  assert (Search.passes JsString.lowerGreekLatin "Σ" "" Scenario.nikos = true)
    as Hshown.
  { apply Hclaim. split; [left | by left].
    exists "ΝΙΚΟ", "Σ", "". by split. }
  discriminate Hshown.
Qed.

Example lowering_of_the_final_sigma :
  JsString.lowerGreekLatin "ΝΙΚΟΣ" = "νικος"
  /\ JsString.lowerGreekLatin "Σ" = "σ"
  /\ JsString.lowerGreekLatin "ΟΣ" = "ος"
  /\ JsString.lowerGreekLatin "John Doe" = "john doe".
Proof. repeat split; reflexivity. Qed.

Example search_is_case_blind_on_names :
  Search.filteredRecords JsString.lowerGreekLatin
    (setSearchTerm "jANE" (setRecords [Scenario.john; Scenario.jane] initialState))
  = [Scenario.jane].
Proof. reflexivity. Qed.

Example search_is_case_exact_on_mrn :
  Search.filteredRecords JsString.lowerGreekLatin
    (setSearchTerm "a1" (setRecords [Scenario.john; Scenario.jane] initialState))
  = []
  /\ Search.filteredRecords JsString.lowerGreekLatin
       (setSearchTerm "A1"
          (setRecords [Scenario.john; Scenario.jane] initialState))
     = [Scenario.john].
Proof. split; reflexivity. Qed.

(** ** The statistics run leaves everything but the statistics alone *)

Lemma setDischargeStats_same st : setDischargeStats (dischargeStats st) st = st.
Proof. by destruct st. Qed.

Lemma specialtyStats_firstQuery w day s :
  firstQuery (specialtyStats w day s) = dischargedPatientsQuery day s.
Proof.
  unfold specialtyStats.
  destruct (countRows w (dischargedPatientsQuery day s)); [| done].
  by destruct (countRows w (completedConsultationsQuery day s)).
Qed.

Lemma specialtyStats_secondQuery w day s :
  secondQuery (specialtyStats w day s) = None
  \/ secondQuery (specialtyStats w day s)
     = Some (completedConsultationsQuery day s).
Proof.
  unfold specialtyStats.
  destruct (countRows w (dischargedPatientsQuery day s)); [| by left].
  destruct (countRows w (completedConsultationsQuery day s)); by right.
Qed.

Lemma issuedQueries_no_update w day l :
  updatesOf (issuedQueries (map (specialtyStats w day) l)) = [].
Proof.
  unfold updatesOf, issuedQueries. rewrite List.filter_app.
  induction l as [|s l IH]; [done |].
  apply app_eq_nil in IH as [IH1 IH2].
  cbn [map omap list_omap]. rewrite specialtyStats_firstQuery.
  destruct (specialtyStats_secondQuery w day s) as [-> | ->];
    cbn [fmap option_fmap option_map List.filter isUpdate
         dischargedPatientsQuery completedConsultationsQuery];
    by rewrite IH1, IH2.
Qed.

Lemma issuedQueries_first w day l s :
  In s l ->
  In (Query (dischargedPatientsQuery day s))
     (issuedQueries (map (specialtyStats w day) l)).
Proof.
  intros Hs. unfold issuedQueries. apply in_or_app. left.
  rewrite map_map. apply in_map_iff. exists s.
  by rewrite specialtyStats_firstQuery.
Qed.

(** What a statistics run can change, and what it sends. *)
Lemma fetchDischargeStats_frame w st :
  exists stats trace,
    fetchDischargeStats w st = (setDischargeStats stats st, trace)
    /\ updatesOf trace = []
    /\ (forall message, ~ In (ToastSuccess message) trace)
    /\ (forall s, In s specialtiesList ->
          In (Query (dischargedPatientsQuery (today w) s)) trace).
Proof.
  unfold fetchDischargeStats.
  pose proof (issuedQueries_no_update w (today w) specialtiesList) as Hupd.
  pose proof (issuedQueries_first w (today w) specialtiesList) as Hfirst.
  set (tasks := map (specialtyStats w (today w)) specialtiesList) in *.
  assert (forall message, ~ In (ToastSuccess message) (issuedQueries tasks))
    as Hquiet.
  { intros message. unfold issuedQueries. rewrite in_app_iff, in_map_iff.
    intros [(t & Ht & _) | Hin]; [done |].
    apply list_elem_of_In, list_elem_of_omap in Hin as (t & _ & Ht).
    by destruct (secondQuery t). }
  destruct (promiseAll (map settled tasks)) as [stats | cause].
  - exists (List.filter hasActivity stats), (issuedQueries tasks).
    repeat split; assumption.
  - eexists (dischargeStats st), _. rewrite setDischargeStats_same.
    split; [reflexivity |]. split; [| split].
    + unfold updatesOf in *. rewrite List.filter_app, Hupd. reflexivity.
    + intros message. rewrite in_app_iff. intros [Hin | Hin].
      * exact (Hquiet message Hin).
      * destruct Hin as [Hin | [Hin | []]]; discriminate Hin.
    + intros s Hs. apply in_or_app. left. exact (Hfirst s Hs).
Qed.

(** ** The discharge command handler *)

Lemma truthy_nonempty (s : string) : truthy s = true <-> s <> "".
Proof. by destruct s. Qed.

(** The handler past its guard: it sends the update, then either takes the
    success path into a statistics run or the failure path. *)
Lemma handleDischarge_armed w later st selected :
  selectedRecord st = Some selected ->
  dischargeDate st <> "" ->
  dischargeTime st <> "" ->
  handleDischarge w later st
  = match awaitUpdate (update w (dischargeRequest w st selected)) with
    | Ok _ =>
        (fst (fetchDischargeStats later (afterDischarge selected st)),
         [ Query (dischargeRequest w st selected);
           ToastSuccess "Record discharged successfully" ]
         ++ snd (fetchDischargeStats later (afterDischarge selected st)))
    | Threw cause =>
        (st,
         [ Query (dischargeRequest w st selected); ConsoleError "Error:" cause;
           ToastError "Failed to discharge record" ])
    end.
Proof.
  intros Hsel Hdate Htime. unfold handleDischarge. rewrite Hsel.
  apply truthy_nonempty in Hdate, Htime. rewrite Hdate, Htime.
  cbn [negb orb].
  destruct (awaitUpdate (update w (dischargeRequest w st selected))); [| done].
  by destruct (fetchDischargeStats later (afterDischarge selected st)).
Qed.

(** Whatever the store answers, an armed handler sends exactly one update. *)
Lemma handleDischarge_one_update w later st selected :
  selectedRecord st = Some selected ->
  dischargeDate st <> "" ->
  dischargeTime st <> "" ->
  updatesOf (snd (handleDischarge w later st))
  = [Query (dischargeRequest w st selected)].
Proof.
  intros Hsel Hdate Htime.
  rewrite (handleDischarge_armed w later st selected Hsel Hdate Htime).
  destruct (awaitUpdate (update w (dischargeRequest w st selected))).
  - destruct (fetchDischargeStats_frame later (afterDischarge selected st))
      as (stats & trace & -> & Hupd & _).
    cbn [snd]. unfold updatesOf in *. rewrite List.filter_app, Hupd.
    unfold dischargeRequest. by destruct (hasSpecialty selected).
  - cbn [snd]. unfold dischargeRequest. by destruct (hasSpecialty selected).
Qed.

(** The guard on the selection alone. *)
Lemma absent_selection_guard w later st :
  selectedRecord st = None ->
  handleDischarge w later st = (st, [ToastError requiredFieldsMessage]).
Proof. intros H. unfold handleDischarge. by rewrite H. Qed.

(** C3.  A submission with no record selected, or with an empty discharge
    date, or with an empty discharge time, ends in the validation error
    alone: the trace holds no request to the store and the state is the one
    before.  This covers the submission with the date empty and the time
    filled in. *)
Theorem missing_required_fields_rejected (w later : World) (st : State) :
  selectedRecord st = None \/ dischargeDate st = "" \/ dischargeTime st = "" ->
  handleDischarge w later st = (st, [ToastError requiredFieldsMessage]).
Proof.
  intros H. unfold handleDischarge.
  destruct (selectedRecord st) as [selected |]; [| done].
  destruct H as [H | [H | H]]; [done | |]; rewrite H; [done |].
  by rewrite orb_true_r.
Qed.

Lemma missing_required_fields_rejected_witness :
  let st :=
    setDischargeDate ""
      (Scenario.filled Scenario.john "stable"
         (mount (Scenario.world Scenario.morning Scenario.accept))) in
  (dischargeDate st = "" /\ dischargeTime st = "10:00")
  /\ handleDischarge (Scenario.world Scenario.morning Scenario.accept)
       (Scenario.world Scenario.morning Scenario.accept) st
     = (st, [ToastError requiredFieldsMessage]).
Proof.
  split; [split; reflexivity |].
  apply missing_required_fields_rejected. right. left. reflexivity.
Defined.

(** C1.  With an admission selected and discharge date and time filled in,
    the handler sends exactly one update: to the [patients] table, keyed by
    the record's medical record number, setting the status to Discharged,
    the discharge date, time and note to the form values (the note is the
    empty string when none was entered) and [updated_at] to the current
    instant. *)
Theorem admission_discharge_sends_one_update
    (w later : World) (st : State) (p : Patient.t) :
  selectedRecord st = Some (Admission p) ->
  dischargeDate st <> "" ->
  dischargeTime st <> "" ->
  updatesOf (snd (handleDischarge w later st))
  = [ Query
        (Update "patients"
           {[ "patient_status" := "Discharged";
              "discharge_date" := dischargeDate st;
              "discharge_time" := dischargeTime st;
              "discharge_note" := dischargeNote st;
              "updated_at" := JsDate.toISOString (clock w) ]}
           [Eq "mrn" (Patient.mrn p)]) ]
  /\ (dischargeNote st = "" ->
      admissionPatch w st !! "discharge_note" = Some "").
Proof.
  intros Hsel Hdate Htime. split.
  - by rewrite (handleDischarge_one_update w later st _ Hsel Hdate Htime).
  - intros Hnote. unfold admissionPatch. rewrite Hnote. by simplify_map_eq.
Qed.

Lemma admission_discharge_sends_one_update_witness :
  let w := Scenario.world Scenario.morning Scenario.accept in
  let st := Scenario.filled Scenario.john "stable" (mount w) in
  updatesOf (snd (handleDischarge w w st))
  = [ Query
        (Update "patients"
           {[ "patient_status" := "Discharged";
              "discharge_date" := "2024-03-01";
              "discharge_time" := "10:00";
              "discharge_note" := "stable";
              "updated_at" := "2024-03-01T10:00:00.000Z" ]}
           [Eq "mrn" "A1"]) ].
Proof.
  intros w st.
  apply (admission_discharge_sends_one_update w w st
           (Patient.mk "A1" "John Doe" "2024-02-20" "08:15" "Active"
              "Neurology"));
    [reflexivity | discriminate | discriminate].
Defined.

(** C2.  With a consultation selected and discharge date and time filled
    in, the handler sends exactly one update: to the [consultations] table,
    keyed by the record's medical record number, whose patch sets the status
    to Completed and [updated_at] to the current instant and has no
    discharge note, date or time field. *)
Theorem consultation_discharge_sends_one_update
    (w later : World) (st : State) (c : Consultation.t) :
  selectedRecord st = Some (Consult c) ->
  dischargeDate st <> "" ->
  dischargeTime st <> "" ->
  exists patch : gmap string string,
    updatesOf (snd (handleDischarge w later st))
    = [Query (Update "consultations" patch [Eq "mrn" (Consultation.mrn c)])]
    /\ patch = {[ "status" := "Completed";
                  "updated_at" := JsDate.toISOString (clock w) ]}
    /\ patch !! "discharge_note" = None
    /\ patch !! "discharge_date" = None
    /\ patch !! "discharge_time" = None.
Proof.
  intros Hsel Hdate Htime. exists (consultationPatch w).
  rewrite (handleDischarge_one_update w later st _ Hsel Hdate Htime).
  unfold consultationPatch. by simplify_map_eq.
Qed.

Lemma consultation_discharge_sends_one_update_witness :
  let w := Scenario.world Scenario.morning Scenario.accept in
  let st := Scenario.filled Scenario.jane "" (mount w) in
  exists patch : gmap string string,
    updatesOf (snd (handleDischarge w w st))
    = [Query (Update "consultations" patch [Eq "mrn" "C1"])]
    /\ patch = {[ "status" := "Completed";
                  "updated_at" := "2024-03-01T10:00:00.000Z" ]}
    /\ patch !! "discharge_note" = None
    /\ patch !! "discharge_date" = None
    /\ patch !! "discharge_time" = None.
Proof.
  intros w st.
  apply (consultation_discharge_sends_one_update w w st
           (Consultation.mk "C1" "Jane Roe" "2024-02-28T09:00:00" "Active"
              "Hematology" "Emergency"));
    [reflexivity | discriminate | discriminate].
Defined.

(** A note typed for an admission and left in the form is not sent with a
    consultation selected afterwards. *)
Example consultation_update_drops_a_left_over_note :
  let w := Scenario.world Scenario.morning Scenario.accept in
  updatesOf
    (snd (handleDischarge w w (Scenario.filled Scenario.jane "stable" (mount w))))
  = [ Query
        (Update "consultations"
           {[ "status" := "Completed";
              "updated_at" := "2024-03-01T10:00:00.000Z" ]}
           [Eq "mrn" "C1"]) ].
Proof. reflexivity. Qed.

Lemma afterDischarge_records selected st record :
  In record (records (afterDischarge selected st))
  <-> In record (records st) /\ mrn record <> mrn selected.
Proof.
  cbn [afterDischarge setDischargeNote setDischargeTime setDischargeDate
       setSelectedRecord setRecords records].
  rewrite filter_In, negb_true_iff, String.eqb_neq. reflexivity.
Qed.

(** C4.  When the update succeeds: the success notification is emitted, no
    record with the selected medical record number is left in the local
    list nor in the filtered view of it, the selection is cleared, the
    discharge date, time and note fields are empty, and a statistics run is
    started: the state and the rest of the trace are those of
    [fetchDischargeStats] on the cleared state, with a count query sent for
    every specialty. *)
Theorem successful_discharge_postconditions
    (w later : World) (st : State) (selected : ActiveRecord) :
  selectedRecord st = Some selected ->
  dischargeDate st <> "" ->
  dischargeTime st <> "" ->
  awaitUpdate (update w (dischargeRequest w st selected)) = Ok tt ->
  let st' := fst (handleDischarge w later st) in
  let trace := snd (handleDischarge w later st) in
  In (ToastSuccess "Record discharged successfully") trace
  /\ (forall record, In record (records st') -> mrn record <> mrn selected)
  /\ (forall toLowerCase record,
        In record (Search.filteredRecords toLowerCase st') ->
        mrn record <> mrn selected)
  /\ selectedRecord st' = None
  /\ dischargeDate st' = "" /\ dischargeTime st' = "" /\ dischargeNote st' = ""
  /\ st' = fst (fetchDischargeStats later (afterDischarge selected st))
  /\ trace
     = [ Query (dischargeRequest w st selected);
         ToastSuccess "Record discharged successfully" ]
       ++ snd (fetchDischargeStats later (afterDischarge selected st))
  /\ (forall s, In s specialtiesList ->
        In (Query (dischargedPatientsQuery (today later) s)) trace).
Proof.
  intros Hsel Hdate Htime Hok st' trace. subst st' trace.
  rewrite (handleDischarge_armed w later st selected Hsel Hdate Htime), Hok.
  destruct (fetchDischargeStats_frame later (afterDischarge selected st))
    as (stats & refresh & -> & _ & _ & Hqueries).
  cbn [fst snd].
  assert (forall record,
            In record (records (setDischargeStats stats
                                  (afterDischarge selected st))) ->
            mrn record <> mrn selected) as Hgone.
  { intros record Hin. by apply (afterDischarge_records selected st record). }
  split; [right; left; reflexivity |].
  split; [exact Hgone |].
  split.
  { intros toLowerCase record Hin. apply Hgone.
    unfold Search.filteredRecords in Hin. by apply filter_In in Hin as [Hin _]. }
  do 6 (split; [reflexivity |]).
  intros s Hs. right. right. exact (Hqueries s Hs).
Qed.

Lemma successful_discharge_postconditions_witness :
  let w := Scenario.world Scenario.morning Scenario.accept in
  let st := Scenario.filled Scenario.john "stable" (mount w) in
  records st = [Scenario.john; Scenario.jane]
  /\ records (fst (handleDischarge w w st)) = [Scenario.jane]
  /\ selectedRecord (fst (handleDischarge w w st)) = None
  /\ dischargeStats (fst (handleDischarge w w st)) = [mkStats "Neurology" 2 0]
  /\ In (ToastSuccess "Record discharged successfully")
        (snd (handleDischarge w w st)).
Proof.
  intros w st. do 4 (split; [reflexivity |]).
  apply (successful_discharge_postconditions w w st Scenario.john);
    [reflexivity | discriminate | discriminate | reflexivity].
Defined.

(** C5, as amended.  When the update fails, the cause is written to the
    console and the failure notification is the fixed message "Failed to
    discharge record", the same for every cause; nothing local changes: the
    list, the selection and the form fields are those before the
    submission. *)
Theorem failed_discharge_changes_nothing
    (w later : World) (st : State) (selected : ActiveRecord) (cause : string) :
  selectedRecord st = Some selected ->
  dischargeDate st <> "" ->
  dischargeTime st <> "" ->
  awaitUpdate (update w (dischargeRequest w st selected)) = Threw cause ->
  fst (handleDischarge w later st) = st
  /\ snd (handleDischarge w later st)
     = [ Query (dischargeRequest w st selected);
         ConsoleError "Error:" cause;
         ToastError "Failed to discharge record" ]
  /\ toastsOf (snd (handleDischarge w later st))
     = [ToastError "Failed to discharge record"].
Proof.
  intros Hsel Hdate Htime Hfail.
  rewrite (handleDischarge_armed w later st selected Hsel Hdate Htime), Hfail.
  by destruct selected.
Qed.

Lemma failed_discharge_changes_nothing_witness :
  let w := Scenario.world Scenario.morning (Scenario.refuse "row is locked") in
  let st := Scenario.filled Scenario.john "stable" (mount w) in
  fst (handleDischarge w w st) = st
  /\ snd (handleDischarge w w st)
     = [ Query (dischargeRequest w st Scenario.john);
         ConsoleError "Error:" "row is locked";
         ToastError "Failed to discharge record" ]
  /\ toastsOf (snd (handleDischarge w w st))
     = [ToastError "Failed to discharge record"].
Proof.
  intros w st.
  apply (failed_discharge_changes_nothing w w st Scenario.john "row is locked");
    [reflexivity | discriminate | discriminate | reflexivity].
Defined.

(** C5, as stated, fails: the update for John Doe is refused with the cause
    "row is locked", and no notification mentions that cause. *)
Lemma failure_toast_omits_cause : ~ failureToastCarriesCause.
Proof.
  intros Hclaim.
  pose (w := Scenario.world Scenario.morning (Scenario.refuse "row is locked")).
  pose (st := Scenario.filled Scenario.john "stable" (mount w)).
  destruct (Hclaim w w st Scenario.john "row is locked")
    as (message & Hin & Hcause); [reflexivity .. |].
  destruct Hin as [Hin | [Hin | [Hin | []]]]; try discriminate Hin.
  injection Hin as <-. discriminate Hcause.
Qed.

(** C10.  After a successful discharge of a record with medical record
    number M, the local list is the old one without every record numbered
    M, whatever its kind, while the one update sent is the one for the
    selected record's own table. *)
Theorem successful_discharge_removes_every_record_with_mrn
    (w later : World) (st : State) (selected : ActiveRecord) :
  selectedRecord st = Some selected ->
  dischargeDate st <> "" ->
  dischargeTime st <> "" ->
  awaitUpdate (update w (dischargeRequest w st selected)) = Ok tt ->
  let st' := fst (handleDischarge w later st) in
  records st'
  = List.filter (fun record => negb (String.eqb (mrn record) (mrn selected)))
      (records st)
  /\ (forall record,
        In record (records st) -> mrn record = mrn selected ->
        ~ In record (records st'))
  /\ (forall record,
        In record (records st) -> mrn record <> mrn selected ->
        In record (records st'))
  /\ updatesOf (snd (handleDischarge w later st))
     = [ Query
           (Update (if hasSpecialty selected then "patients" else "consultations")
              (if hasSpecialty selected then admissionPatch w st
               else consultationPatch w)
              [Eq "mrn" (mrn selected)]) ].
Proof.
  intros Hsel Hdate Htime Hok st'. subst st'.
  rewrite (handleDischarge_one_update w later st selected Hsel Hdate Htime).
  rewrite (handleDischarge_armed w later st selected Hsel Hdate Htime), Hok.
  destruct (fetchDischargeStats_frame later (afterDischarge selected st))
    as (stats & refresh & -> & _).
  cbn [fst]. split; [reflexivity |].
  split; [| split].
  - intros record _ Hmrn Hin.
    by apply (afterDischarge_records selected st record) in Hin as [_ Hne].
  - intros record Hin Hne.
    by apply (afterDischarge_records selected st record).
  - unfold dischargeRequest. by destruct (hasSpecialty selected).
Qed.

Lemma successful_discharge_removes_every_record_with_mrn_witness :
  let w := Scenario.world Scenario.morning Scenario.accept in
  let st :=
    Scenario.filled Scenario.john "stable"
      (setRecords [Scenario.john; Scenario.jane; Scenario.johnConsult]
         (mount w)) in
  records (fst (handleDischarge w w st)) = [Scenario.jane]
  /\ ~ In Scenario.johnConsult (records (fst (handleDischarge w w st)))
  /\ updatesOf (snd (handleDischarge w w st))
     = [ Query
           (Update "patients" (admissionPatch w st) [Eq "mrn" "A1"]) ].
Proof.
  intros w st.
  destruct (successful_discharge_removes_every_record_with_mrn
              w w st Scenario.john)
    as (Hrecords & Hgone & _ & Hupdates);
    [reflexivity | discriminate | discriminate | reflexivity |].
  split; [exact Hrecords |].
  split; [| exact Hupdates].
  apply Hgone; [right; right; left |]; reflexivity.
Defined.

(** ** Absent and stale selections *)

(** C9, as amended.  A submission with no record selected ends in the
    validation error alone, with no request to the store and the state
    unchanged.  A confirmed discharge clears the selection, so a submission
    that follows it, whatever is typed into the date and time fields again,
    is turned away in the same way.  The guard reads the selection only: a
    selection that is present is not checked against the list. *)
Theorem absent_selection_rejected
    (w later : World) (st : State) :
  (selectedRecord st = None ->
   handleDischarge w later st = (st, [ToastError requiredFieldsMessage]))
  /\ (forall (w' later' : World) (selected : ActiveRecord) (date time : string),
        selectedRecord st = Some selected ->
        dischargeDate st <> "" ->
        dischargeTime st <> "" ->
        awaitUpdate (update w (dischargeRequest w st selected)) = Ok tt ->
        let again :=
          setDischargeTime time
            (setDischargeDate date (fst (handleDischarge w later st))) in
        selectedRecord again = None
        /\ handleDischarge w' later' again
           = (again, [ToastError requiredFieldsMessage])).
Proof.
  split; [apply absent_selection_guard |].
  intros w' later' selected date time Hsel Hdate Htime Hok again.
  assert (selectedRecord again = None) as Hnone.
  { subst again.
    rewrite (handleDischarge_armed w later st selected Hsel Hdate Htime), Hok.
    by destruct (fetchDischargeStats_frame later (afterDischarge selected st))
      as (stats & refresh & -> & _). }
  split; [exact Hnone | by apply absent_selection_guard].
Qed.

Lemma absent_selection_rejected_witness :
  let w := Scenario.world Scenario.morning Scenario.accept in
  let st := Scenario.filled Scenario.john "stable" (mount w) in
  let again :=
    setDischargeTime "10:05"
      (setDischargeDate "2024-03-01" (fst (handleDischarge w w st))) in
  (records again = [Scenario.jane] /\ dischargeTime again = "10:05")
  /\ selectedRecord again = None
  /\ handleDischarge w w again = (again, [ToastError requiredFieldsMessage]).
Proof.
  intros w st again. split; [split; reflexivity |].
  destruct (absent_selection_rejected w w st) as [_ Hagain].
  apply (Hagain w w Scenario.john "2024-03-01" "10:05");
    [reflexivity | discriminate | discriminate | reflexivity].
Defined.

(** C9, as stated, fails: with the admission A1 selected, the form filled
    in and a list that holds the consultation C1 only, so that the
    selection is stale, the handler sends the update for A1. *)
Lemma stale_selection_is_discharged_again : ~ rejectsStaleOrAbsent.
Proof.
  intros Hclaim.
  pose (w := Scenario.world Scenario.morning Scenario.accept).
  pose (st := Scenario.filled Scenario.john ""
                (setRecords [Scenario.jane] (mount w))).
  assert (staleOrAbsent st) as Hstale.
  { intros [Hin | []]. discriminate Hin. }
  specialize (Hclaim w w st Hstale).
  apply (f_equal (fun result => updatesOf (snd result))) in Hclaim.
  discriminate Hclaim.
Qed.

(** ** The day of a statistics run *)

Lemma lacks_app sep (a b : string) :
  lacks sep (a +:+ b) = lacks sep a && lacks sep b.
Proof.
  induction a as [|c a IH]; [done |].
  rewrite app_cons. cbn [lacks]. by rewrite IH, andb_assoc.
Qed.

Lemma beforeFirst_app sep (a b : string) :
  lacks sep a = true -> beforeFirst sep (a +:+ String sep b) = a.
Proof.
  induction a as [|c a IH]; intros Ha.
  - rewrite app_empty. cbn [beforeFirst]. by rewrite Ascii.eqb_refl.
  - rewrite app_cons. cbn [lacks beforeFirst] in *.
    apply andb_true_iff in Ha as [Hc Ha]. apply negb_true_iff in Hc.
    by rewrite Hc, IH.
Qed.

Lemma digit_not_T (n : Z) : Ascii.eqb (JsDate.digit n) "T" = false.
Proof.
  unfold JsDate.digit.
  assert (Z.to_nat (n mod 10) < 10)%nat as Hlt
    by (pose proof (Z.mod_pos_bound n 10); lia).
  generalize dependent (Z.to_nat (n mod 10)). intros k Hlt.
  do 10 (destruct k as [|k]; [reflexivity |]). lia.
Qed.

Lemma digits_lack_T width (n : Z) (acc : string) :
  lacks "T" acc = true -> lacks "T" (JsDate.digits width n acc) = true.
Proof.
  revert n acc. induction width as [|width IH]; intros n acc Hacc; [done |].
  cbn [JsDate.digits]. apply IH. cbn [lacks]. by rewrite digit_not_T.
Qed.

Lemma pad_lacks_T width (n : Z) : lacks "T" (JsDate.pad width n) = true.
Proof. by apply digits_lack_T. Qed.

Lemma dateString_lacks_T (day : Z) : lacks "T" (JsDate.dateString day) = true.
Proof.
  unfold JsDate.dateString. destruct (JsDate.civil day) as [[y m] d].
  rewrite !lacks_app, !pad_lacks_T. unfold JsDate.yearString.
  destruct ((0 <=? y)%Z && (y <=? 9999)%Z).
  - by rewrite pad_lacks_T.
  - rewrite lacks_app, pad_lacks_T. by destruct (y <? 0)%Z.
Qed.

(** [today] is the calendar date of the instant in UTC. *)
Lemma today_is_utc_date (w : World) :
  today w = JsDate.dateString (JsDate.Day (clock w)).
Proof.
  unfold today, JsDate.toISOString.
  apply beforeFirst_app, dateString_lacks_T.
Qed.

Example today_in_the_late_evening :
  today (Scenario.world Scenario.lateEvening Scenario.accept) = "2024-03-01"
  /\ JsDate.localDateString 180 Scenario.lateEvening = "2024-03-02".
Proof. split; reflexivity. Qed.

(** ** The statistics against a store that counts its rows *)

Lemma window_filter le day column value statusColumn status row :
  forallb (satisfies le row)
    ([Eq column value; Eq statusColumn status] ++ dayWindow day)
  = hasValue column value row && hasValue statusColumn status row
    && updatedOn le day row.
Proof.
  cbn [forallb app dayWindow satisfies]. unfold hasValue, updatedOn.
  destruct (row !! column) as [x |]; [destruct (x =? value)%string |];
    (destruct (row !! statusColumn) as [y |];
       [destruct (y =? status)%string |]);
    (destruct (row !! "updated_at") as [u |];
       [destruct (le (day +:+ "T00:00:00") u), (le u (day +:+ "T23:59:59")) |]);
    reflexivity.
Qed.

Lemma specialtyStats_on_store le store w day s :
  countRows w = storeCount le store ->
  settled (specialtyStats w day s) = Ok (statsOn le day s store).
Proof.
  intros Hcount. unfold specialtyStats. rewrite Hcount.
  unfold dischargedPatientsQuery, completedConsultationsQuery.
  cbn [storeCount settled countError count orZero].
  unfold statsOn, admissionsDischargedOn, consultationsCompletedOn.
  do 2 f_equal; f_equal; apply filter_ext; intros row; apply window_filter.
Qed.

(** ** Joining the tasks *)

Lemma promiseAll_map {A B : Type} (f : A -> Outcome B) (g : A -> B) l :
  (forall a, In a l -> f a = Ok (g a)) ->
  promiseAll (map f l) = Ok (map g l).
Proof.
  induction l as [|a l IH]; intros Hf; [reflexivity |].
  cbn [map promiseAll]. rewrite (Hf a (or_introl eq_refl)).
  rewrite IH; [reflexivity |]. intros b Hb. apply Hf. by right.
Qed.


Lemma specialtyStats_specialty w day s stat :
  settled (specialtyStats w day s) = Ok stat -> specialty stat = s.
Proof.
  unfold specialtyStats.
  destruct (countRows w (dischargedPatientsQuery day s)) as [r1 |]; [| done].
  destruct (countRows w (completedConsultationsQuery day s)) as [r2 |];
    [| done].
  cbn [settled]. destruct (countError r1), (countError r2); try done.
  by intros [= <-].
Qed.

Lemma specialtiesList_NoDup : NoDup specialtiesList.
Proof. apply (bool_decide_unpack _). by vm_compute. Qed.


Lemma filter_none {A : Type} (p : A -> bool) l :
  (forall a, In a l -> p a = false) -> List.filter p l = [].
Proof.
  induction l as [|a l IH]; intros Hp; [reflexivity |]. cbn [List.filter].
  rewrite (Hp a (or_introl eq_refl)). apply IH. intros b Hb. apply Hp.
  by right.
Qed.

Section Tasks.

Variable w : World.
Variable day : string.



End Tasks.

(** ** Daily discharge statistics *)

(** C6, as amended.  Against a store that counts its rows, a statistics run
    computes for every specialty of the fixed list the number of admissions
    with that specialty, status Discharged and [updated_at] within
    [00:00:00, 23:59:59] of the UTC calendar date of the instant of the run
    (the date part of [toISOString]), and the number of consultations with
    that consultation specialty, status Completed and [updated_at] within
    the same window; the run reports those of them that show activity. *)
Theorem statistics_count_the_utc_day
    (le : string -> string -> bool) (store : Store) (w : World) (st : State) :
  countRows w = storeCount le store ->
  let day := JsDate.dateString (JsDate.Day (clock w)) in
  (forall s, In s specialtiesList ->
     settled (specialtyStats w (today w) s)
     = Ok {| specialty := s;
             admissions := admissionsDischargedOn le day s store;
             consultations := consultationsCompletedOn le day s store |})
  /\ dischargeStats (fst (fetchDischargeStats w st))
     = List.filter hasActivity
         (map (fun s => statsOn le day s store) specialtiesList).
Proof.
  intros Hcount day. subst day. rewrite <- today_is_utc_date. split.
  - intros s _. by apply specialtyStats_on_store.
  - unfold fetchDischargeStats. rewrite map_map.
    rewrite (promiseAll_map _ (fun s => statsOn le (today w) s store));
      [reflexivity |].
    intros s _. by apply specialtyStats_on_store.
Qed.

Lemma statistics_count_the_utc_day_witness :
  let w := Scenario.world Scenario.lateEvening Scenario.accept in
  settled (specialtyStats w (today w) "Neurology")
  = Ok {| specialty := "Neurology";
          admissions :=
            admissionsDischargedOn String.leb "2024-03-01" "Neurology"
              Scenario.ward;
          consultations :=
            consultationsCompletedOn String.leb "2024-03-01" "Neurology"
              Scenario.ward |}
  /\ dischargeStats (fst (fetchDischargeStats w initialState))
     = [mkStats "Neurology" 2 0].
Proof.
  intros w.
  destruct (statistics_count_the_utc_day String.leb Scenario.ward w
              initialState eq_refl) as [Hcounts Hout].
  split; [| exact Hout].
  apply Hcounts. do 3 right. left. reflexivity.
Defined.

(** C6, as stated, fails: at 2024-03-01T22:30Z a client three hours east of
    Greenwich is in 2 March, yet the run counts the two Neurology admissions
    discharged on 1 March and none of 2 March. *)
Lemma statistics_do_not_count_the_local_day : ~ countsTheLocalDay.
Proof.
  intros Hclaim.
  specialize (Hclaim String.leb Scenario.ward 180%Z
                (Scenario.world Scenario.lateEvening Scenario.accept)
                "Neurology" eq_refl).
  assert (In "Neurology" specialtiesList) as Hlisted
    by (do 3 right; left; reflexivity).
  specialize (Hclaim Hlisted). vm_compute in Hclaim. discriminate Hclaim.
Qed.




(** * Further properties of the component *)

(** ** The active record aggregator *)

Lemma filter_map_all {A B : Type} (p : B -> bool) (f : A -> B) l :
  (forall a, p (f a) = true) -> List.filter p (map f l) = map f l.
Proof.
  intros Hp. induction l as [|a l IH]; [reflexivity |].
  cbn [map List.filter]. by rewrite Hp, IH.
Qed.

Lemma filter_map_none {A B : Type} (p : B -> bool) (f : A -> B) l :
  (forall a, p (f a) = false) -> List.filter p (map f l) = [].
Proof.
  intros Hp. induction l as [|a l IH]; [reflexivity |].
  cbn [map List.filter]. by rewrite Hp, IH.
Qed.

(** X1.  When both reads are answered without error, the unified list
    separates again into what each table returned: its records that carry
    a specialty are the admissions of the reply, in the order of the reply,
    the others are the consultations, every admission stands before every
    consultation, and a reply without data counts as an empty one.  Nothing
    is notified and the loading flag is down. *)
Theorem loaded_list_separates_by_kind
    (w : World) (st : State)
    (patientsReply : SelectResult Patient.t)
    (consultationsReply : SelectResult Consultation.t) :
  selectPatients w activePatientsQuery = Fulfilled patientsReply ->
  selectConsultations w activeConsultationsQuery
  = Fulfilled consultationsReply ->
  selectError patientsReply = None ->
  selectError consultationsReply = None ->
  let st' := fst (fetchActiveRecords w st) in
  List.filter hasSpecialty (records st')
  = map Admission (orEmpty (data patientsReply))
  /\ List.filter (fun record => negb (hasSpecialty record)) (records st')
     = map Consult (orEmpty (data consultationsReply))
  /\ records st'
     = List.filter hasSpecialty (records st')
       ++ List.filter (fun record => negb (hasSpecialty record)) (records st')
  /\ loading st' = false
  /\ toastsOf (snd (fetchActiveRecords w st)) = [].
Proof.
  intros Hp Hc Hpe Hce st'. subst st'. unfold fetchActiveRecords.
  rewrite Hp, Hc, Hpe, Hce.
  cbn [fst snd setLoading setRecords records loading].
  rewrite !List.filter_app.
  rewrite (filter_map_all hasSpecialty Admission) by reflexivity.
  rewrite (filter_map_none hasSpecialty Consult) by reflexivity.
  rewrite (filter_map_none (fun record => negb (hasSpecialty record)) Admission)
    by reflexivity.
  rewrite (filter_map_all (fun record => negb (hasSpecialty record)) Consult)
    by reflexivity.
  rewrite app_nil_r. cbn [app]. repeat split; reflexivity.
Qed.

Lemma loaded_list_separates_by_kind_witness :
  let w := Scenario.world Scenario.morning Scenario.accept in
  List.filter hasSpecialty (records (mount w)) = [Scenario.john]
  /\ List.filter (fun record => negb (hasSpecialty record)) (records (mount w))
     = [Scenario.jane].
Proof.
  intros w.
  destruct (loaded_list_separates_by_kind w initialState
              (mkSelectResult
                 (Some [Patient.mk "A1" "John Doe" "2024-02-20" "08:15"
                          "Active" "Neurology"]) None)
              (mkSelectResult
                 (Some [Consultation.mk "C1" "Jane Roe" "2024-02-28T09:00:00"
                          "Active" "Hematology" "Emergency"]) None)
              eq_refl eq_refl eq_refl eq_refl)
    as (Hadm & Hcons & _).
  split; [exact Hadm | exact Hcons].
Defined.

(** Either both reads came back without error, or the run took the failure
    path after sending [sent]. *)
Lemma fetchActiveRecords_cases w st :
  (exists r1 r2,
     selectPatients w activePatientsQuery = Fulfilled r1
     /\ selectConsultations w activeConsultationsQuery = Fulfilled r2
     /\ selectError r1 = None /\ selectError r2 = None)
  \/ (exists cause sent,
        fetchActiveRecords w st
        = (setLoading false st, sent ++ fetchActiveRecordsFailed cause)
        /\ toastsOf sent = [] /\ updatesOf sent = []).
Proof.
  unfold fetchActiveRecords.
  destruct (selectPatients w activePatientsQuery) as [r1 | cause].
  - destruct (selectConsultations w activeConsultationsQuery) as [r2 | cause].
    + destruct (selectError r1) as [cause |] eqn:H1.
      * right. by eexists cause, _.
      * destruct (selectError r2) as [cause |] eqn:H2.
        -- right. by eexists cause, _.
        -- left. by exists r1, r2.
    + right. by eexists cause, _.
  - right. by eexists cause, _.
Qed.

(** X2.  When either read fails, by a rejection or by an error in its
    reply, the run is all or nothing: the state is the one before with the
    loading flag down, so no partial list shows even if the other read
    brought rows, and the only notification is "Failed to fetch active
    records". *)
Theorem failed_load_shows_no_partial_list (w : World) (st : State) :
  ~ (exists r1 r2,
       selectPatients w activePatientsQuery = Fulfilled r1
       /\ selectConsultations w activeConsultationsQuery = Fulfilled r2
       /\ selectError r1 = None /\ selectError r2 = None) ->
  fst (fetchActiveRecords w st) = setLoading false st
  /\ records (fst (fetchActiveRecords w st)) = records st
  /\ toastsOf (snd (fetchActiveRecords w st))
     = [ToastError "Failed to fetch active records"]
  /\ updatesOf (snd (fetchActiveRecords w st)) = [].
Proof.
  intros Hfail.
  destruct (fetchActiveRecords_cases w st)
    as [Hok | (cause & sent & -> & Htoasts & Hupdates)]; [by destruct Hfail |].
  cbn [fst snd]. unfold toastsOf, updatesOf in *.
  rewrite !List.filter_app, Htoasts, Hupdates. by destruct st.
Qed.

Lemma failed_load_shows_no_partial_list_witness :
  let w :=
    {| clock := Scenario.morning;
       selectPatients :=
         selectPatients (Scenario.world Scenario.morning Scenario.accept);
       selectConsultations := fun _ => Rejected "network down";
       countRows := storeCount String.leb Scenario.ward;
       update := Scenario.accept |} in
  records (fst (fetchActiveRecords w initialState)) = []
  /\ toastsOf (snd (fetchActiveRecords w initialState))
     = [ToastError "Failed to fetch active records"].
Proof.
  intros w.
  destruct (failed_load_shows_no_partial_list w initialState)
    as (_ & Hrecords & Htoasts & _).
  - intros (r1 & r2 & _ & Hc & _). discriminate Hc.
  - split; [exact Hrecords | exact Htoasts].
Defined.

(** ** The statistics run *)

Lemma issuedQueries_only_counts tasks e :
  In e (issuedQueries tasks) -> exists request, e = Query request.
Proof.
  unfold issuedQueries. rewrite in_app_iff, in_map_iff.
  intros [(t & <- & _) | Hin]; [by eexists |].
  apply list_elem_of_In, list_elem_of_omap in Hin as (t & _ & Ht).
  destruct (secondQuery t) as [q |]; [| discriminate Ht].
  injection Ht as <-. by eexists.
Qed.

Lemma issuedQueries_no_toast tasks : toastsOf (issuedQueries tasks) = [].
Proof.
  apply filter_none. intros e He.
  by destruct (issuedQueries_only_counts tasks e He) as [request ->].
Qed.

Lemma promiseAll_threw {A : Type} (l : list (Outcome A)) cause :
  In (Threw cause) l -> exists first, promiseAll l = Threw first.
Proof.
  induction l as [|o l IH]; [intros [] |].
  intros [-> | Hin]; [by eexists |].
  destruct o as [a | c]; [| by eexists]. cbn [promiseAll].
  destruct (IH Hin) as [first ->]. by eexists.
Qed.

Lemma promiseAll_values {A : Type} (l : list (Outcome A)) values :
  promiseAll l = Ok values -> l = map Ok values.
Proof.
  revert values. induction l as [|o l IH]; intros values.
  - by intros [= <-].
  - destruct o as [a | c]; [| discriminate]. cbn [promiseAll].
    destruct (promiseAll l) as [rest | c]; [| discriminate].
    intros [= <-]. cbn [map]. by rewrite (IH rest eq_refl).
Qed.

(** The failure path of a statistics run. *)
Lemma statistics_failure_path w st s cause :
  In s specialtiesList ->
  settled (specialtyStats w (today w) s) = Threw cause ->
  fst (fetchDischargeStats w st) = st
  /\ toastsOf (snd (fetchDischargeStats w st))
     = [ToastError "Failed to fetch discharge statistics"].
Proof.
  intros Hs Hthrew. unfold fetchDischargeStats.
  set (tasks := map (specialtyStats w (today w)) specialtiesList).
  assert (In (Threw cause) (map settled tasks)) as Hin.
  { subst tasks. rewrite map_map. apply in_map_iff. by exists s. }
  destruct (promiseAll_threw _ _ Hin) as [first ->]. cbn [fst snd].
  split; [reflexivity |]. unfold toastsOf.
  rewrite List.filter_app. fold (toastsOf (issuedQueries tasks)).
  by rewrite issuedQueries_no_toast.
Qed.

(** X3.  One failing count is enough to void a statistics run: when the
    task of some specialty throws, whether by a rejected query or by an
    error in a reply, the whole state is the one before, so the statistics
    shown stay the old ones, and the only notification is "Failed to fetch
    discharge statistics". *)
Theorem one_failed_count_voids_the_run
    (w : World) (st : State) (s cause : string) :
  In s specialtiesList ->
  settled (specialtyStats w (today w) s) = Threw cause ->
  fst (fetchDischargeStats w st) = st
  /\ toastsOf (snd (fetchDischargeStats w st))
     = [ToastError "Failed to fetch discharge statistics"].
Proof. apply statistics_failure_path. Qed.

Lemma one_failed_count_voids_the_run_witness :
  let w :=
    {| clock := Scenario.morning;
       selectPatients :=
         selectPatients (Scenario.world Scenario.morning Scenario.accept);
       selectConsultations :=
         selectConsultations (Scenario.world Scenario.morning Scenario.accept);
       countRows := fun request =>
         match request with
         | CountExact "consultations" _ =>
             Fulfilled {| count := None; countError := Some "timeout" |}
         | _ => storeCount String.leb Scenario.ward request
         end;
       update := Scenario.accept |} in
  let st := setDischargeStats [mkStats "Rheumatology" 1 4] initialState in
  dischargeStats (fst (fetchDischargeStats w st)) = [mkStats "Rheumatology" 1 4]
  /\ toastsOf (snd (fetchDischargeStats w st))
     = [ToastError "Failed to fetch discharge statistics"].
Proof.
  intros w st.
  destruct (one_failed_count_voids_the_run w st "Hematology" "timeout")
    as [Hstate Htoasts].
  - do 6 right. left. reflexivity.
  - reflexivity.
  - split; [by rewrite Hstate | exact Htoasts].
Defined.

Lemma issuedQueries_are_counts w day l e :
  In e (issuedQueries (map (specialtyStats w day) l)) -> isCount e = true.
Proof.
  unfold issuedQueries. rewrite map_map, in_app_iff, in_map_iff.
  intros [(s & <- & _) | Hin].
  - by rewrite specialtyStats_firstQuery.
  - apply list_elem_of_In, list_elem_of_omap in Hin as (t & Ht & He).
    apply list_elem_of_In, in_map_iff in Ht as (s & <- & _).
    destruct (specialtyStats_secondQuery w day s) as [Hq | Hq];
      rewrite Hq in He; [discriminate He |].
    by injection He as <-.
Qed.

(** X4.  A statistics run, whatever the store answers, changes no cell of
    the state but the statistics, and all it sends are count queries: no
    read of rows, no update, and it never announces a success. *)
Theorem statistics_run_touches_only_statistics (w : World) (st : State) :
  let st' := fst (fetchDischargeStats w st) in
  let trace := snd (fetchDischargeStats w st) in
  st' = setDischargeStats (dischargeStats st') st
  /\ (forall request, In (Query request) trace -> isCount (Query request) = true)
  /\ (forall message, ~ In (ToastSuccess message) trace).
Proof.
  intros st' trace. subst st' trace. unfold fetchDischargeStats.
  set (tasks := map (specialtyStats w (today w)) specialtiesList).
  assert (forall message, ~ In (ToastSuccess message) (issuedQueries tasks))
    as Hquiet.
  { intros message Hin.
    by destruct (issuedQueries_only_counts tasks _ Hin) as [request Hq]. }
  destruct (promiseAll (map settled tasks)) as [stats | cause]; cbn [fst snd].
  - split; [reflexivity |]. split; [| exact Hquiet].
    intros request Hin.
    exact (issuedQueries_are_counts w (today w) specialtiesList _ Hin).
  - split; [by destruct st |]. split.
    + intros request [Hin | Hin]%in_app_iff.
      * exact (issuedQueries_are_counts w (today w) specialtiesList _ Hin).
      * destruct Hin as [Hin | [Hin | []]]; discriminate Hin.
    + intros message [Hin | Hin]%in_app_iff; [exact (Hquiet message Hin) |].
      destruct Hin as [Hin | [Hin | []]]; discriminate Hin.
Qed.

Lemma statistics_run_touches_only_statistics_witness :
  let w := Scenario.world Scenario.morning Scenario.accept in
  let st := Scenario.filled Scenario.john "stable" (mount w) in
  records (fst (fetchDischargeStats w st)) = [Scenario.john; Scenario.jane]
  /\ selectedRecord (fst (fetchDischargeStats w st)) = Some Scenario.john
  /\ ~ In (ToastSuccess "Record discharged successfully")
        (snd (fetchDischargeStats w st)).
Proof.
  intros w st.
  destruct (statistics_run_touches_only_statistics w st)
    as (Hstate & _ & Hquiet).
  split; [by rewrite Hstate |]. split; [by rewrite Hstate |].
  apply Hquiet.
Defined.

Lemma firstQueries_about w day table s l :
  List.filter (asksAbout table s)
    (map (fun t => Query (firstQuery t)) (map (specialtyStats w day) l))
  = if String.eqb "patients" table
    then map (fun s' => Query (dischargedPatientsQuery day s'))
           (List.filter (fun s' => String.eqb s' s) l)
    else [].
Proof.
  induction l as [|s' l IH]; [by destruct (String.eqb "patients" table) |].
  cbn [map List.filter]. rewrite IH, specialtyStats_firstQuery.
  cbn [asksAbout dischargedPatientsQuery app].
  destruct (String.eqb "patients" table); [| reflexivity].
  cbn [andb]. by destruct (String.eqb s' s).
Qed.

Lemma secondQueries_about w day table s l :
  List.filter (asksAbout table s)
    (omap (fun t => Query <$> secondQuery t) (map (specialtyStats w day) l))
  = if String.eqb "consultations" table
    then omap (fun t => Query <$> secondQuery t)
           (map (specialtyStats w day)
              (List.filter (fun s' => String.eqb s' s) l))
    else [].
Proof.
  induction l as [|s' l IH]; [by destruct (String.eqb "consultations" table) |].
  cbn [map omap list_omap List.filter].
  fold (omap (fun t => Query <$> secondQuery t)
          (map (specialtyStats w day) l)).
  destruct (specialtyStats_secondQuery w day s') as [Hq | Hq].
  - rewrite Hq. cbn [fmap option_fmap option_map]. rewrite IH.
    destruct (String.eqb "consultations" table); [| reflexivity].
    destruct (String.eqb s' s); [| reflexivity].
    cbn [map omap list_omap]. by rewrite Hq.
  - rewrite Hq. cbn [fmap option_fmap option_map List.filter].
    rewrite IH. cbn [asksAbout completedConsultationsQuery app].
    destruct (String.eqb "consultations" table); [| reflexivity].
    cbn [andb]. destruct (String.eqb s' s); [| reflexivity].
    cbn [map omap list_omap]. by rewrite Hq.
Qed.

Lemma filter_own_entry (s : string) (l : list string) :
  NoDup l -> In s l -> List.filter (fun s' => String.eqb s' s) l = [s].
Proof.
  induction l as [|s' l IH]; [intros _ [] |].
  intros [Hfresh Hnodup]%NoDup_cons Hin. cbn [List.filter].
  destruct (String.eqb_spec s' s) as [-> | Hne].
  - f_equal. apply filter_none. intros s'' Hin'. apply String.eqb_neq.
    intros ->. by apply Hfresh, list_elem_of_In.
  - destruct Hin as [-> | Hin]; [done |]. by apply IH.
Qed.

(** X5.  A reply that reports an error stops no query, and none is sent
    twice: in every run, for every listed specialty, exactly one count of
    its admissions goes out and at most one count of its consultations,
    the latter whenever the former was answered at all; every query of the
    run is one of these. *)
Theorem statistics_run_asks_for_every_specialty (w : World) (st : State) :
  let trace := snd (fetchDischargeStats w st) in
  (forall s, In s specialtiesList ->
     List.filter (asksAbout "patients" s) trace
     = [Query (dischargedPatientsQuery (today w) s)]
     /\ (List.filter (asksAbout "consultations" s) trace = []
         \/ List.filter (asksAbout "consultations" s) trace
            = [Query (completedConsultationsQuery (today w) s)]))
  /\ (forall s reply, In s specialtiesList ->
        countRows w (dischargedPatientsQuery (today w) s) = Fulfilled reply ->
        List.filter (asksAbout "consultations" s) trace
        = [Query (completedConsultationsQuery (today w) s)])
  /\ (forall request, In (Query request) trace ->
        exists s, In s specialtiesList
                  /\ (asksAbout "patients" s (Query request)
                      || asksAbout "consultations" s (Query request)) = true).
Proof.
  intros trace.
  assert (forall table s,
            List.filter (asksAbout table s) trace
            = List.filter (asksAbout table s)
                (issuedQueries
                   (map (specialtyStats w (today w)) specialtiesList)))
    as Htrace.
  { intros table s. subst trace. unfold fetchDischargeStats.
    destruct (promiseAll _); cbn [snd]; [reflexivity |].
    rewrite List.filter_app. cbn [List.filter asksAbout]. apply app_nil_r. }
  assert (forall s, In s specialtiesList ->
            List.filter (asksAbout "patients" s) trace
            = [Query (dischargedPatientsQuery (today w) s)]
            /\ List.filter (asksAbout "consultations" s) trace
               = omap (fun t => Query <$> secondQuery t)
                   [specialtyStats w (today w) s]) as Hboth.
  { intros s Hs. rewrite !Htrace. unfold issuedQueries.
    rewrite !List.filter_app, !firstQueries_about, !secondQueries_about.
    cbn [String.eqb Ascii.eqb Bool.eqb app].
    rewrite (filter_own_entry s specialtiesList specialtiesList_NoDup Hs).
    split; reflexivity. }
  split; [| split].
  - intros s Hs. destruct (Hboth s Hs) as [Hfirst Hsecond].
    split; [exact Hfirst |]. rewrite Hsecond. cbn [omap list_omap].
    destruct (specialtyStats_secondQuery w (today w) s) as [-> | ->];
      [by left | by right].
  - intros s reply Hs Hreply. destruct (Hboth s Hs) as [_ ->].
    cbn [omap list_omap]. unfold specialtyStats. rewrite Hreply.
    by destruct (countRows w (completedConsultationsQuery (today w) s)).
  - intros request Hin.
    assert (In (Query request)
              (issuedQueries
                 (map (specialtyStats w (today w)) specialtiesList))) as Hsent.
    { subst trace. unfold fetchDischargeStats in Hin.
      destruct (promiseAll _); cbn [snd] in Hin; [exact Hin |].
      apply in_app_iff in Hin as [Hin | Hin]; [exact Hin |].
      destruct Hin as [Hin | [Hin | []]]; discriminate Hin. }
    unfold issuedQueries in Hsent. rewrite map_map in Hsent.
    apply in_app_iff in Hsent as [(s & Hq & Hs)%in_map_iff | Hsent].
    + exists s. split; [exact Hs |]. rewrite <- Hq, specialtyStats_firstQuery.
      cbn [asksAbout dischargedPatientsQuery app].
      by rewrite !String.eqb_refl.
    + apply list_elem_of_In, list_elem_of_omap in Hsent as (t & Ht & Hq).
      apply list_elem_of_In, in_map_iff in Ht as (s & <- & Hs).
      exists s. split; [exact Hs |].
      destruct (specialtyStats_secondQuery w (today w) s) as [Hnone | Hsome];
        rewrite ?Hnone, ?Hsome in Hq; [discriminate Hq |].
      injection Hq as <-. cbn [asksAbout completedConsultationsQuery app].
      by rewrite !String.eqb_refl, orb_true_r.
Qed.

Lemma statistics_run_asks_for_every_specialty_witness :
  let w := Scenario.world Scenario.morning Scenario.accept in
  List.filter (asksAbout "consultations" "Safety Admission")
    (snd (fetchDischargeStats w initialState))
  = [Query (completedConsultationsQuery "2024-03-01" "Safety Admission")].
Proof.
  intros w.
  destruct (statistics_run_asks_for_every_specialty w initialState)
    as (_ & Hsecond & _).
  apply (Hsecond "Safety Admission"
           {| count := Some 0; countError := None |});
    [do 9 right; left; reflexivity | reflexivity].
Defined.

Lemma settled_specialties w day l stats :
  map (fun s => settled (specialtyStats w day s)) l = map Ok stats ->
  map specialty stats = l.
Proof.
  revert stats. induction l as [|s l IH]; intros [|stat stats] H;
    try discriminate H; [reflexivity |].
  cbn [map] in *. injection H as Hs Hrest.
  by rewrite (specialtyStats_specialty w day s stat Hs), (IH stats Hrest).
Qed.

Lemma sublist_map_filter {A B : Type} (f : A -> B) (p : A -> bool) l :
  sublist (map f (List.filter p l)) (map f l).
Proof.
  induction l as [|a l IH]; [constructor |]. cbn [List.filter map].
  destruct (p a); cbn [map]; by constructor.
Qed.

(** X6.  Whatever the store answers, the statistics shown after a run are
    either the ones shown before (the run failed) or a list in which every
    entry has a nonzero count and whose specialties follow the order of the
    fixed list, each at most once. *)
Theorem reported_statistics_are_ordered_and_active (w : World) (st : State) :
  let reported := dischargeStats (fst (fetchDischargeStats w st)) in
  reported = dischargeStats st
  \/ (sublist (map specialty reported) specialtiesList
      /\ NoDup (map specialty reported)
      /\ forall entry, In entry reported ->
           0 < admissions entry + consultations entry).
Proof.
  intros reported. subst reported. unfold fetchDischargeStats.
  rewrite map_map.
  destruct (promiseAll
              (map (fun s => settled (specialtyStats w (today w) s))
                 specialtiesList)) as [stats | cause] eqn:Hjoin;
    cbn [fst]; [right | by left].
  cbn [setDischargeStats dischargeStats].
  apply promiseAll_values, settled_specialties in Hjoin.
  assert (sublist (map specialty (List.filter hasActivity stats))
            specialtiesList) as Hsub.
  { rewrite <- Hjoin. apply sublist_map_filter. }
  split; [exact Hsub |]. split.
  - exact (sublist_NoDup _ _ specialtiesList_NoDup Hsub).
  - intros entry [_ Hactive]%filter_In. unfold hasActivity in Hactive.
    apply orb_true_iff in Hactive as [H%Nat.ltb_lt | H%Nat.ltb_lt]; lia.
Qed.

Lemma reported_statistics_are_ordered_and_active_witness :
  let w := Scenario.world Scenario.morning Scenario.accept in
  let reported := dischargeStats (fst (fetchDischargeStats w initialState)) in
  reported = [mkStats "Neurology" 2 0]
  /\ (reported = []
      \/ (sublist (map specialty reported) specialtiesList
          /\ NoDup (map specialty reported)
          /\ forall entry, In entry reported ->
               0 < admissions entry + consultations entry)).
Proof.
  intros w reported. split; [reflexivity |].
  apply (reported_statistics_are_ordered_and_active w initialState).
Defined.

(** ** The discharge command handler, continued *)

(** What a submission can do to the state: nothing, or the clearing of a
    confirmed discharge followed by a statistics run. *)
Lemma handleDischarge_cases w later st :
  fst (handleDischarge w later st) = st
  \/ exists selected stats,
       selectedRecord st = Some selected
       /\ fst (handleDischarge w later st)
          = setDischargeStats stats (afterDischarge selected st).
Proof.
  unfold handleDischarge.
  destruct (selectedRecord st) as [selected |] eqn:Hsel; [| by left].
  destruct (negb (truthy (dischargeDate st))
            || negb (truthy (dischargeTime st))); [by left |].
  destruct (awaitUpdate (update w (dischargeRequest w st selected)));
    [| by left].
  destruct (fetchDischargeStats_frame later (afterDischarge selected st))
    as (stats & refresh & -> & _).
  right. by exists selected, stats.
Qed.

Lemma sublist_filter_bool {A : Type} (p : A -> bool) l :
  sublist (List.filter p l) l.
Proof.
  induction l as [|a l IH]; [constructor |]. cbn [List.filter].
  destruct (p a); by constructor.
Qed.

(** X7.  No submission, accepted or not, touches the search term, the
    specialty filter or the loading flag, and none adds to the list or
    reorders it: the list afterwards is the list before with some records
    left out. *)
Theorem submission_keeps_filters_and_order (w later : World) (st : State) :
  let st' := fst (handleDischarge w later st) in
  searchTerm st' = searchTerm st
  /\ selectedSpecialty st' = selectedSpecialty st
  /\ loading st' = loading st
  /\ sublist (records st') (records st).
Proof.
  intros st'. subst st'.
  destruct (handleDischarge_cases w later st)
    as [-> | (selected & stats & _ & ->)]; [done |].
  do 3 (split; [reflexivity |]).
  cbn [setDischargeStats afterDischarge setDischargeNote setDischargeTime
       setDischargeDate setSelectedRecord setRecords records].
  apply sublist_filter_bool.
Qed.

(** X8.  A discharge the store confirmed stands even when the statistics
    run that follows it fails: the record is off the list, the selection
    and the form are cleared and the success was announced, then the
    failure of the statistics is announced and the statistics shown stay
    the old ones. *)
Theorem confirmed_discharge_survives_failed_statistics
    (w later : World) (st : State) (selected : ActiveRecord)
    (s cause : string) :
  selectedRecord st = Some selected ->
  dischargeDate st <> "" ->
  dischargeTime st <> "" ->
  awaitUpdate (update w (dischargeRequest w st selected)) = Ok tt ->
  In s specialtiesList ->
  settled (specialtyStats later (today later) s) = Threw cause ->
  fst (handleDischarge w later st) = afterDischarge selected st
  /\ dischargeStats (fst (handleDischarge w later st)) = dischargeStats st
  /\ toastsOf (snd (handleDischarge w later st))
     = [ ToastSuccess "Record discharged successfully";
         ToastError "Failed to fetch discharge statistics" ].
Proof.
  intros Hsel Hdate Htime Hok Hs Hthrew.
  rewrite (handleDischarge_armed w later st selected Hsel Hdate Htime), Hok.
  destruct (statistics_failure_path later (afterDischarge selected st)
              s cause Hs Hthrew) as [Hstate Htoasts].
  cbn [fst snd]. rewrite Hstate. split; [reflexivity |].
  split; [reflexivity |].
  unfold toastsOf in *. rewrite List.filter_app, Htoasts.
  unfold dischargeRequest. by destruct (hasSpecialty selected).
Qed.

Lemma confirmed_discharge_survives_failed_statistics_witness :
  let w := Scenario.world Scenario.morning Scenario.accept in
  let later :=
    {| clock := Scenario.morning;
       selectPatients := selectPatients w;
       selectConsultations := selectConsultations w;
       countRows := fun _ => Rejected "network down";
       update := Scenario.accept |} in
  let st := Scenario.filled Scenario.john "stable" (mount w) in
  records (fst (handleDischarge w later st)) = [Scenario.jane]
  /\ toastsOf (snd (handleDischarge w later st))
     = [ ToastSuccess "Record discharged successfully";
         ToastError "Failed to fetch discharge statistics" ].
Proof.
  intros w later st.
  destruct (confirmed_discharge_survives_failed_statistics
              w later st Scenario.john "Neurology" "network down")
    as (Hstate & _ & Htoasts);
    [reflexivity | discriminate | discriminate | reflexivity
    | do 3 right; left; reflexivity | reflexivity |].
  split; [by rewrite Hstate | exact Htoasts].
Defined.

Lemma filter_length_lt {A : Type} (p : A -> bool) l a :
  In a l -> p a = false -> length (List.filter p l) < length l.
Proof.
  induction l as [|b l IH]; [intros [] |]. cbn [List.filter length].
  pose proof (List.filter_length_le p l) as Hle.
  intros [-> | Hin] Hp.
  - rewrite Hp. lia.
  - specialize (IH Hin Hp). destruct (p b); cbn [length]; lia.
Qed.

(** X9.  When the selected record is on the list at the submission, a
    confirmed discharge leaves the list strictly shorter. *)
Theorem confirmed_discharge_shortens_the_list
    (w later : World) (st : State) (selected : ActiveRecord) :
  In selected (records st) ->
  selectedRecord st = Some selected ->
  dischargeDate st <> "" ->
  dischargeTime st <> "" ->
  awaitUpdate (update w (dischargeRequest w st selected)) = Ok tt ->
  length (records (fst (handleDischarge w later st))) < length (records st).
Proof.
  intros Hlisted Hsel Hdate Htime Hok.
  rewrite (handleDischarge_armed w later st selected Hsel Hdate Htime), Hok.
  destruct (fetchDischargeStats_frame later (afterDischarge selected st))
    as (stats & refresh & -> & _).
  cbn [fst setDischargeStats afterDischarge setDischargeNote setDischargeTime
       setDischargeDate setSelectedRecord setRecords records].
  apply (filter_length_lt _ _ selected Hlisted).
  by rewrite String.eqb_refl.
Qed.

Lemma confirmed_discharge_shortens_the_list_witness :
  let w := Scenario.world Scenario.morning Scenario.accept in
  let st := Scenario.filled Scenario.jane "" (mount w) in
  length (records st) = 2
  /\ length (records (fst (handleDischarge w w st))) < length (records st).
Proof.
  intros w st. split; [reflexivity |].
  apply (confirmed_discharge_shortens_the_list w w st Scenario.jane);
    [right; left; reflexivity | reflexivity | discriminate | discriminate
    | reflexivity].
Defined.

(** ** The filtered list *)

Lemma includes_empty (s : string) : includes s "" = true.
Proof. by destruct s. Qed.

Lemma string_app_assoc (a b c : string) : (a +:+ b) +:+ c = a +:+ b +:+ c.
Proof.
  induction a as [|x a IH]; [reflexivity |]. by rewrite !app_cons, IH.
Qed.

Lemma filter_all {A : Type} (p : A -> bool) l :
  (forall a, p a = true) -> List.filter p l = l.
Proof.
  intros Hp. induction l as [|a l IH]; [reflexivity |]. cbn [List.filter].
  by rewrite Hp, IH.
Qed.

(** X10.  With an empty search box and no specialty chosen, the filtered
    list is the whole list, whatever [toLowerCase] does; this is how the
    panel opens. *)
Theorem empty_filters_show_every_record
    (toLowerCase : string -> string) (st : State) :
  searchTerm st = "" ->
  selectedSpecialty st = "" ->
  Search.filteredRecords toLowerCase st = records st.
Proof.
  intros Hterm Hsel. unfold Search.filteredRecords. rewrite Hterm, Hsel.
  apply filter_all. intros record.
  unfold Search.passes, Search.matchesSearch, Search.matchesMrn.
  by rewrite includes_empty, orb_true_r.
Qed.

Lemma empty_filters_show_every_record_witness :
  let w := Scenario.world Scenario.morning Scenario.accept in
  Search.filteredRecords JsString.lowerGreekLatin (mount w)
  = [Scenario.john; Scenario.jane].
Proof.
  intros w.
  rewrite (empty_filters_show_every_record JsString.lowerGreekLatin (mount w));
    reflexivity.
Defined.

(** X12.  Every record can be found, whatever [toLowerCase] does: a search
    term whose lower-casing is that of its full patient name, or its exact
    medical record number, with its own specialty (or none) chosen, keeps
    it in the filtered list. *)
Theorem record_is_found_by_its_name_or_mrn
    (toLowerCase : string -> string) (st : State) (record : ActiveRecord)
    (term sel : string) :
  In record (records st) ->
  toLowerCase term = toLowerCase (patient_name record) \/ term = mrn record ->
  sel = "" \/ sel = Search.specialtyOf record ->
  In record
    (Search.filteredRecords toLowerCase
       (setSelectedSpecialty sel (setSearchTerm term st))).
Proof.
  intros Hin Hterm Hsel. unfold Search.filteredRecords.
  cbn [setSelectedSpecialty setSearchTerm searchTerm selectedSpecialty records].
  apply filter_In. split; [exact Hin |].
  unfold Search.passes. apply andb_true_iff. split.
  - unfold Search.matchesSearch, Search.matchesName, Search.matchesMrn.
    apply orb_true_iff. destruct Hterm as [-> | ->]; [left | right];
      apply includes_same.
  - apply matchesSpecialty_spec.
    destruct Hsel as [-> | ->]; [by left | by right].
Qed.

Lemma record_is_found_by_its_name_or_mrn_witness :
  let st := setRecords [Scenario.john; Scenario.jane] initialState in
  In Scenario.jane
    (Search.filteredRecords JsString.lowerGreekLatin
       (setSelectedSpecialty "Hematology" (setSearchTerm "JANE ROE" st))).
Proof.
  intros st.
  apply record_is_found_by_its_name_or_mrn;
    [right; left; reflexivity | left; reflexivity | right; reflexivity].
Defined.

(** ** What is rendered *)

(** X13.  Before the reads of the mount effect settle the component returns
    the loading message.  Once they have, whatever the store answered, the
    loading flag is down for good: the component returns the panel, and
    does so still after any later submission or statistics run. *)
Theorem loading_message_ends_with_the_reads (w : World) :
  render initialState = LoadingView
  /\ (exists panel, render (mount w) = PanelView panel)
  /\ (forall (w' later : World) (st : State),
        loading st = false ->
        loading (fst (handleDischarge w' later st)) = false
        /\ loading (fst (fetchDischargeStats w' st)) = false).
Proof.
  split; [reflexivity |]. split.
  - unfold render, mount.
    destruct (fetchActiveRecords_cases w initialState)
      as [(r1 & r2 & H1 & H2 & He1 & He2) | (cause & sent & -> & _)].
    + unfold fetchActiveRecords. rewrite H1, H2, He1, He2. by eexists.
    + by eexists.
  - intros w' later st Hloading. split.
    + by destruct (handleDischarge_cases w' later st)
        as [-> | (selected & stats & _ & ->)].
    + by destruct (fetchDischargeStats_frame w' st)
        as (stats & trace & -> & _).
Qed.

Lemma loading_message_ends_with_the_reads_witness :
  let w := Scenario.world Scenario.morning Scenario.accept in
  let st := Scenario.filled Scenario.john "stable" (mount w) in
  loading (fst (handleDischarge w w st)) = false.
Proof.
  intros w st.
  destruct (loading_message_ends_with_the_reads w) as (_ & _ & Hkept).
  apply (Hkept w w st). reflexivity.
Defined.

(** X14.  What the form shows is what the update carries: with a record
    selected, the note field is rendered exactly when the update has a
    [discharge_note], and then with the value that is sent.  The date and
    time the form asks for are sent for an admission only; for a
    consultation they go nowhere. *)
Theorem form_shows_what_the_update_carries
    (w : World) (st : State) (selected : ActiveRecord) :
  loading st = false ->
  selectedRecord st = Some selected ->
  exists panel shown,
    render st = PanelView panel
    /\ form panel = Some shown
    /\ noteValue shown
       = patchOf (dischargeRequest w st selected) !! "discharge_note"
    /\ patchOf (dischargeRequest w st selected) !! "discharge_date"
       = (if hasSpecialty selected then Some (dateValue shown) else None)
    /\ patchOf (dischargeRequest w st selected) !! "discharge_time"
       = (if hasSpecialty selected then Some (timeValue shown) else None).
Proof.
  intros Hloading Hsel. unfold render. rewrite Hloading, Hsel.
  eexists _, _. split; [reflexivity |]. split; [reflexivity |].
  unfold dischargeRequest, renderForm.
  destruct (hasSpecialty selected);
    cbn [noteValue dateValue timeValue patchOf];
    unfold admissionPatch, consultationPatch; by simplify_map_eq.
Qed.

Lemma form_shows_what_the_update_carries_witness :
  let w := Scenario.world Scenario.morning Scenario.accept in
  let st := Scenario.filled Scenario.jane "left over" (mount w) in
  exists panel shown,
    render st = PanelView panel
    /\ form panel = Some shown
    /\ noteValue shown = None
    /\ dateValue shown = "2024-03-01"
    /\ patchOf (dischargeRequest w st Scenario.jane) !! "discharge_date" = None.
Proof.
  intros w st.
  destruct (form_shows_what_the_update_carries w st Scenario.jane)
    as (panel & shown & Hview & Hform & Hnote & Hdate & _);
    [reflexivity | reflexivity |].
  exists panel, shown. split; [exact Hview |]. split; [exact Hform |].
  split; [by rewrite Hnote |]. split; [| exact Hdate].
  unfold render in Hview. injection Hview as <-. by injection Hform as <-.
Defined.

(** ** The day window against the timestamps the handler writes *)

Lemma compare_same (s : string) : String.compare s s = Datatypes.Eq.
Proof.
  induction s as [|c s IH]; [reflexivity |]. cbn [String.compare].
  unfold Ascii.compare. by rewrite N.compare_refl.
Qed.

(** Text comparison goes block by block over blocks of equal length. *)
Lemma compare_blocks (a a' b b' : string) :
  String.length a = String.length a' ->
  String.compare (a +:+ b) (a' +:+ b')
  = match String.compare a a' with
    | Datatypes.Eq => String.compare b b'
    | other => other
    end.
Proof.
  revert a'. induction a as [|c a IH]; intros [|c' a'] Hlen;
    try discriminate Hlen; [reflexivity |].
  rewrite !app_cons. cbn [String.compare].
  destruct (Ascii.compare c c'); [| reflexivity | reflexivity].
  apply IH. by injection Hlen.
Qed.

Lemma digits_length width (n : Z) (acc : string) :
  String.length (JsDate.digits width n acc) = width + String.length acc.
Proof.
  revert n acc. induction width as [|width IH]; intros n acc; [reflexivity |].
  cbn [JsDate.digits]. rewrite IH. cbn [String.length]. lia.
Qed.

Lemma pad_length width (n : Z) : String.length (JsDate.pad width n) = width.
Proof. unfold JsDate.pad. rewrite digits_length. cbn [String.length]. lia. Qed.

(** Minutes and seconds against the bounds of the window. *)
Lemma pad2_against_59 (n : Z) :
  (0 <= n < 60)%Z ->
  String.compare "00" (JsDate.pad 2 n) <> Gt
  /\ String.compare (JsDate.pad 2 n) "59"
     = if (n =? 59)%Z then Datatypes.Eq else Lt.
Proof.
  intros Hn.
  assert (exists k, n = Z.of_nat k /\ k < 60) as (k & -> & Hk)
    by (exists (Z.to_nat n); lia).
  do 60 (destruct k as [|k]; [split; [by vm_compute | reflexivity] |]). lia.
Qed.

(** Hours against the bounds of the window. *)
Lemma pad2_against_23 (n : Z) :
  (0 <= n < 24)%Z ->
  String.compare "00" (JsDate.pad 2 n) <> Gt
  /\ String.compare (JsDate.pad 2 n) "23"
     = if (n =? 23)%Z then Datatypes.Eq else Lt.
Proof.
  intros Hn.
  assert (exists k, n = Z.of_nat k /\ k < 24) as (k & -> & Hk)
    by (exists (Z.to_nat n); lia).
  do 24 (destruct k as [|k]; [split; [by vm_compute | reflexivity] |]). lia.
Qed.

Lemma last_second_arith (ms : Z) :
  (0 <= ms < 86400000)%Z ->
  negb ((ms / 3600000 =? 23)%Z && (ms / 60000 mod 60 =? 59)%Z
        && (ms / 1000 mod 60 =? 59)%Z)
  = (ms <? 86399000)%Z.
Proof.
  intros Hms.
  destruct (Z.ltb_spec ms 86399000) as [Hlt | Hge].
  - apply negb_true_iff, not_true_iff_false. rewrite !andb_true_iff.
    intros [[Hh%Z.eqb_eq Hm%Z.eqb_eq] Hs%Z.eqb_eq].
    Z.div_mod_to_equations. lia.
  - apply negb_false_iff. rewrite !andb_true_iff, !Z.eqb_eq.
    Z.div_mod_to_equations. lia.
Qed.

Lemma timeString_blocks (ms : Z) :
  "T" +:+ JsDate.timeString ms +:+ "Z"
  = "T" +:+ JsDate.pad 2 (ms / 3600000) +:+ ":"
    +:+ JsDate.pad 2 (ms / 60000 mod 60) +:+ ":"
    +:+ JsDate.pad 2 (ms / 1000 mod 60)
    +:+ "." +:+ JsDate.pad 3 (ms mod 1000) +:+ "Z".
Proof. unfold JsDate.timeString. by rewrite !string_app_assoc. Qed.

Lemma stamp_against_window (t : Z) :
  let day := JsDate.dateString (JsDate.Day t) in
  String.leb (day +:+ "T00:00:00") (JsDate.toISOString t) = true
  /\ String.leb (JsDate.toISOString t) (day +:+ "T23:59:59")
     = (JsDate.TimeWithinDay t <? 86399000)%Z.
Proof.
  intros day. subst day. unfold JsDate.toISOString, String.leb.
  rewrite !compare_blocks, compare_same by reflexivity.
  rewrite timeString_blocks.
  set (ms := JsDate.TimeWithinDay t).
  assert (0 <= ms < 86400000)%Z as Hms
    by (subst ms; unfold JsDate.TimeWithinDay, JsDate.msPerDay;
        apply Z.mod_pos_bound; lia).
  assert (0 <= ms / 3600000 < 24)%Z as Hh by (Z.div_mod_to_equations; lia).
  assert (0 <= ms / 60000 mod 60 < 60)%Z as Hm by (apply Z.mod_pos_bound; lia).
  assert (0 <= ms / 1000 mod 60 < 60)%Z as Hs by (apply Z.mod_pos_bound; lia).
  destruct (pad2_against_23 _ Hh) as [Hh0 Hh23].
  destruct (pad2_against_59 _ Hm) as [Hm0 Hm59].
  destruct (pad2_against_59 _ Hs) as [Hs0 Hs59].
  rewrite <- (last_second_arith ms Hms).
  change "T00:00:00" with ("T" +:+ "00" +:+ ":" +:+ "00" +:+ ":" +:+ "00" +:+ "").
  change "T23:59:59" with ("T" +:+ "23" +:+ ":" +:+ "59" +:+ ":" +:+ "59" +:+ "").
  rewrite !compare_blocks by (rewrite ?pad_length; reflexivity).
  rewrite Hh23, Hm59, Hs59.
  change (String.compare "T" "T") with Datatypes.Eq.
  change (String.compare ":" ":") with Datatypes.Eq.
  change (String.compare "" ("." +:+ JsDate.pad 3 (ms mod 1000) +:+ "Z"))
    with Lt.
  change (String.compare ("." +:+ JsDate.pad 3 (ms mod 1000) +:+ "Z") "")
    with Gt.
  cbv iota. split.
  - destruct (String.compare "00" (JsDate.pad 2 (ms / 3600000)));
      [| reflexivity | by destruct Hh0].
    destruct (String.compare "00" (JsDate.pad 2 (ms / 60000 mod 60)));
      [| reflexivity | by destruct Hm0].
    by destruct (String.compare "00" (JsDate.pad 2 (ms / 1000 mod 60)));
      [| | destruct Hs0].
  - by destruct (ms / 3600000 =? 23)%Z, (ms / 60000 mod 60 =? 59)%Z,
      (ms / 1000 mod 60 =? 59)%Z.
Qed.


(** X16.  Compared as text, the stamp a discharge writes to [updated_at]
    lies inside the day window that a statistics run of the same UTC day
    asks for, unless the discharge falls in the last second of that day:
    from 23:59:59.000 on, the stamp extends the upper bound of the window
    and sorts after it. *)
Theorem last_second_stamp_misses_the_day_window
    (w later : World) (st : State) (selected : ActiveRecord) :
  JsDate.Day (clock later) = JsDate.Day (clock w) ->
  forallb (satisfies String.leb (patchOf (dischargeRequest w st selected)))
    (dayWindow (today later))
  = (JsDate.TimeWithinDay (clock w) <? 86399000)%Z.
Proof.
  intros Hday. rewrite today_is_utc_date, Hday.
  destruct (stamp_against_window (clock w)) as [Hlower Hupper].
  assert (patchOf (dischargeRequest w st selected) !! "updated_at"
          = Some (JsDate.toISOString (clock w))) as Hstamp.
  { unfold dischargeRequest.
    destruct (hasSpecialty selected); cbn [patchOf];
      unfold admissionPatch, consultationPatch; by simplify_map_eq. }
  cbn [dayWindow forallb satisfies]. rewrite Hstamp, Hlower, Hupper.
  by rewrite andb_true_r.
Qed.

Lemma last_second_stamp_misses_the_day_window_witness :
  let w := Scenario.world 1709337599500 Scenario.accept in
  let st := Scenario.filled Scenario.john "stable" (mount w) in
  JsDate.toISOString (clock w) = "2024-03-01T23:59:59.500Z"
  /\ dayWindow (today w)
     = [ Gte "updated_at" "2024-03-01T00:00:00";
         Lte "updated_at" "2024-03-01T23:59:59" ]
  /\ forallb (satisfies String.leb (patchOf (dischargeRequest w st Scenario.john)))
       (dayWindow (today w))
     = false.
Proof.
  intros w st. do 2 (split; [reflexivity |]).
  rewrite (last_second_stamp_misses_the_day_window w w st Scenario.john eq_refl).
  reflexivity.
Defined.

(** ** Notifications and the statistics section *)

Lemma fetchDischargeStats_toasts w st :
  toastsOf (snd (fetchDischargeStats w st)) = []
  \/ toastsOf (snd (fetchDischargeStats w st))
     = [ToastError "Failed to fetch discharge statistics"].
Proof.
  unfold fetchDischargeStats.
  set (tasks := map (specialtyStats w (today w)) specialtiesList).
  destruct (promiseAll (map settled tasks)) as [stats | cause]; cbn [snd].
  - left. apply issuedQueries_no_toast.
  - right. unfold toastsOf. rewrite List.filter_app.
    fold (toastsOf (issuedQueries tasks)). by rewrite issuedQueries_no_toast.
Qed.

(** X17.  Every submission is answered, and in one of four ways only: the
    request to fill in the required fields; the failure of the discharge;
    the success; or the success followed by the failure of the statistics.
    A success is never announced after a failure. *)
Theorem submission_notifications (w later : World) (st : State) :
  let toasts := toastsOf (snd (handleDischarge w later st)) in
  toasts = [ToastError requiredFieldsMessage]
  \/ toasts = [ToastError "Failed to discharge record"]
  \/ toasts = [ToastSuccess "Record discharged successfully"]
  \/ toasts = [ ToastSuccess "Record discharged successfully";
                ToastError "Failed to fetch discharge statistics" ].
Proof.
  intros toasts. subst toasts.
  destruct (selectedRecord st) as [selected |] eqn:Hsel;
    [| left; by rewrite absent_selection_guard].
  destruct (dischargeDate st) as [|c date] eqn:Hdate.
  { left. unfold handleDischarge. by rewrite Hsel, Hdate. }
  destruct (dischargeTime st) as [|c' time] eqn:Htime.
  { left. unfold handleDischarge. by rewrite Hsel, Hdate, Htime. }
  right.
  rewrite (handleDischarge_armed w later st selected Hsel)
    by (rewrite ?Hdate, ?Htime; discriminate).
  destruct (awaitUpdate (update w (dischargeRequest w st selected)))
    as [[] | cause]; cbn [snd].
  - right. unfold toastsOf. rewrite List.filter_app.
    fold (toastsOf
            (snd (fetchDischargeStats later (afterDischarge selected st)))).
    destruct (fetchDischargeStats_toasts later (afterDischarge selected st))
      as [-> | ->]; [left | right];
      unfold dischargeRequest; by destruct (hasSpecialty selected).
  - left. unfold dischargeRequest. by destruct (hasSpecialty selected).
Qed.




